(** * Employee Management System: task service and dashboards

    A shallow embedding of the task access layer (the module that
    [src/App.jsx] imports as [./tasksService]) and of the state handling of
    [src/App.jsx] (session resolver, manager dashboard, employee dashboard),
    together with a model of the remote store they talk to.  JavaScript objects are finite maps from property
    names to values; React state is a record threaded through a small
    state-and-exception monad; every [await] is a suspension point at which
    the committed component state is on screen. *)

From Stdlib Require Import ZArith.
From stdpp Require Import base option list strings gmap fin_maps sorting.

Open Scope Z_scope.
Open Scope string_scope.
Open Scope list_scope.

(** ** JavaScript values and objects *)

Inductive jsval : Type :=
  | JUndefined
  | JNull
  | JBool (b : bool)
  | JNum (n : Z)
  | JStr (s : string).

Global Instance jsval_eq_dec : EqDecision jsval.
Proof. solve_decision. Defined.

(** [ToBoolean]: the falsy values are undefined, null, false, 0 and ''. *)
Definition truthy (v : jsval) : bool :=
  match v with
  | JUndefined | JNull => false
  | JBool b => b
  | JNum n => negb (n =? 0)%Z
  | JStr s => negb (String.eqb s "")
  end.

(** [a || b] *)
Definition js_or (a b : jsval) : jsval := if truthy a then a else b.

(** [a === b] on primitive values *)
Definition js_strict_eq (a b : jsval) : bool := bool_decide (a = b).

Abbreviation obj := (gmap string jsval).

(** [o.k]: reading a missing property yields undefined. *)
Definition get (o : obj) (k : string) : jsval := default JUndefined (o !! k).

(** An object literal [{k1: v1, ..., kn: vn}]. *)
Definition object (props : list (string * jsval)) : obj := list_to_map props.

(** [JSON.stringify] of a flat object: properties whose value is undefined
    are left out of the request body. *)
Definition to_json (o : obj) : obj := filter (λ kv, kv.2 ≠ JUndefined) o.

(** ** The remote store

    The hosted database and auth service behind [supabaseClient.js] is an
    external collaborator.  Its model follows the gateway contract of the
    spec (query with filter and order, insert, update, delete; get session,
    sign in, sign out) over the tables of the external interface. *)

Record remote_error : Type := RemoteError { message : string }.

Record response (A : Type) : Type := Response {
  data : option A;          (* [None] is JavaScript null *)
  error : option remote_error
}.
Arguments Response {A} _ _.
Arguments data {A} _.
Arguments error {A} _.

Record user_session : Type := Session {
  user_id : string;         (* session.user.id *)
  user_email : string       (* session.user.email *)
}.

Record account : Type := Account {
  acc_email : string;
  acc_password : string;
  acc_session : user_session
}.

(** How the service treats the next request: it answers it from the store,
    or it serves it but the reply carries no body, or it fails with an error
    (network failure, policy rejection, ...) and leaves the store as it
    was. *)
Inductive reply_mode : Type :=
  | Answer
  | NoData
  | Failure (e : remote_error).

Record world : Type := World {
  db : gmap string (list obj);     (* table name -> rows *)
  accounts : list account;
  stored_session : option user_session; (* the session the client library holds *)
  fresh_id : Z;                    (* next primary key the store hands out *)
  clock : string;                  (* current time, as an ISO-8601 string *)
  script : list reply_mode         (* one entry per upcoming request *)
}.

Definition with_db (d : gmap string (list obj)) (w : world) : world :=
  World d (accounts w) (stored_session w) (fresh_id w) (clock w) (script w).
Definition with_stored_session (s : option user_session) (w : world) : world :=
  World (db w) (accounts w) s (fresh_id w) (clock w) (script w).
Definition with_fresh_id (n : Z) (w : world) : world :=
  World (db w) (accounts w) (stored_session w) n (clock w) (script w).
Definition with_script (l : list reply_mode) (w : world) : world :=
  World (db w) (accounts w) (stored_session w) (fresh_id w) (clock w) l.

Definition table (t : string) (w : world) : list obj := default [] (db w !! t).
Definition with_table (t : string) (rows : list obj) (w : world) : world :=
  with_db (<[t := rows]> (db w)) w.

(** *** Requests, as the query builder assembles them *)

Inductive verb : Type :=
  | Select (columns : list string)
  | Insert (rows : list obj)
  | Update (patch : obj)
  | Delete.

Record request : Type := Request {
  r_table : string;
  r_verb : verb;
  r_filters : list (string * jsval);   (* .eq(column, value), conjoined *)
  r_order : option (string * bool)     (* .order(column, {ascending}) *)
}.

Definition sb_select (columns : list string) (t : string) : request :=
  Request t (Select columns) [] None.
Definition sb_insert (rows : list obj) (t : string) : request :=
  Request t (Insert rows) [] None.
Definition sb_update (patch : obj) (t : string) : request :=
  Request t (Update patch) [] None.
Definition sb_delete (t : string) : request :=
  Request t Delete [] None.
Definition sb_eq (column : string) (v : jsval) (r : request) : request :=
  Request (r_table r) (r_verb r) (r_filters r ++ [(column, v)]) (r_order r).
Definition sb_order (column : string) (ascending : bool) (r : request) : request :=
  Request (r_table r) (r_verb r) (r_filters r) (Some (column, ascending)).

(** *** Evaluation of a request on the store *)

(** Modelled from the spec: the value of a column in a stored row; a column
    that the row does not carry is SQL NULL. *)
Definition column (r : obj) (c : string) : jsval := default JNull (r !! c).

(** Modelled from the spec: the filter [column = value] of a query; a null
    (or undefined) operand matches nothing. *)
Definition eq_filter (f : string * jsval) (r : obj) : bool :=
  bool_decide (f.2 ≠ JNull ∧ f.2 ≠ JUndefined ∧ r !! f.1 = Some f.2).

(** Modelled from the spec: a row passes when it passes every filter. *)
Definition matches (fs : list (string * jsval)) (r : obj) : bool :=
  forallb (λ f, eq_filter f r) fs.

(** Modelled from the spec: the store's ordering of column values.  Values
    of one type go by their natural order (timestamps are ISO-8601 strings
    of one format, whose lexicographic order is the chronological one), and
    NULL comes after every value. *)
Definition val_rank (v : jsval) : Z :=
  match v with
  | JBool _ => 0
  | JNum _ => 1
  | JStr _ => 2
  | JNull | JUndefined => 3
  end.

(** Modelled from the spec: [a <= b] in that ordering. *)
Definition val_leb (a b : jsval) : bool :=
  match a, b with
  | JBool x, JBool y => implb x y
  | JNum x, JNum y => (x <=? y)%Z
  | JStr s, JStr t => String.leb s t
  | _, _ => (val_rank a <=? val_rank b)%Z
  end.

Definition val_le (a b : jsval) : Prop := val_leb a b = true.

(** Modelled from the spec: [row_before c asc x y], row [x] may stand
    before row [y] when ordering by column [c], ascending or descending. *)
Definition row_before (c : string) (ascending : bool) (x y : obj) : Prop :=
  if ascending then val_le (column x c) (column y c)
  else val_le (column y c) (column x c).

Global Instance row_before_dec c asc : RelDecision (row_before c asc).
Proof. intros x y. unfold row_before, val_le. destruct asc; apply _. Defined.

(** Modelled from the spec: the rows in the requested order (a query
    without [.order] keeps the table's order). *)
Definition order_rows (o : option (string * bool)) (rows : list obj) : list obj :=
  match o with
  | None => rows
  | Some (c, asc) => merge_sort (row_before c asc) rows
  end.

(** Modelled from the spec: the selected columns of a row; every selected
    column is present in the result, as null when the row has no value for
    it. *)
Definition project (columns : list string) (r : obj) : obj :=
  list_to_map ((λ c, (c, column r c)) <$> columns).

(** Modelled from the spec: an update overwrites, in the rows that pass the
    filters, the columns that the patch names, and keeps the others. *)
Definition apply_patch (body : obj) (fs : list (string * jsval)) (r : obj) : obj :=
  if matches fs r then body ∪ r else r.

(** Modelled from the spec: inserted rows get a primary key and a creation
    time from the store unless the body supplies them. *)
Fixpoint insert_rows (bodies : list obj) (next : Z) (now : string)
    : list obj * Z :=
  match bodies with
  | [] => ([], next)
  | b :: bs =>
      let stored := b ∪ object [("id", JNum next); ("created_at", JStr now)] in
      let '(rest, next') := insert_rows bs (next + 1) now in
      (stored :: rest, next')
  end.

(** Modelled from the spec: the remote store's answer to a request (the
    service itself is no part of the repository).  A query returns the
    selected columns of the rows that pass the filters, in the requested
    order; a mutation returns no body. *)
Definition serve (r : request) (w : world) : response (list obj) * world :=
  let rows := table (r_table r) w in
  match r_verb r with
  | Select columns =>
      (Response
         (Some (project columns <$>
                  order_rows (r_order r) (filter (λ x, matches (r_filters r) x = true) rows)))
         None, w)
  | Insert bodies =>
      let '(new, next) := insert_rows (to_json <$> bodies) (fresh_id w) (clock w) in
      (Response None None, with_fresh_id next (with_table (r_table r) (rows ++ new) w))
  | Update patch =>
      (Response None None,
       with_table (r_table r) (apply_patch (to_json patch) (r_filters r) <$> rows) w)
  | Delete =>
      (Response None None,
       with_table (r_table r) (filter (λ x, matches (r_filters r) x = false) rows) w)
  end.

(** The reply mode of the next request (an exhausted script answers), and
    the world once that request has been consumed. *)
Definition next_reply (w : world) : reply_mode :=
  match script w with
  | [] => Answer
  | m :: _ => m
  end.

Definition after_reply (w : world) : world := with_script (tail (script w)) w.

(** Modelled from the spec: one round trip to the remote service, which
    may fail with a remote-reported error; the script decides whether the
    request reaches the store. *)
Definition remote_call {A : Type} (answer : world → response A * world)
    (w : world) : response A * world :=
  match next_reply w with
  | Answer => answer (after_reply w)
  | NoData =>
      let '(resp, w') := answer (after_reply w) in
      (Response None (error resp), w')
  | Failure e => (Response None (Some e), after_reply w)
  end.

(** [await builder] *)
Definition run (r : request) : world → response (list obj) * world :=
  remote_call (serve r).

(** Modelled from the spec: [.single()] of the client library, exactly one
    row or a lookup failure (zero or several rows). *)
Definition single_row (resp : response (list obj)) : response obj :=
  match error resp, data resp with
  | Some e, _ => Response None (Some e)
  | None, Some [x] => Response (Some x) None
  | None, _ =>
      Response None
        (Some (RemoteError "JSON object requested, multiple (or no) rows returned"))
  end.

(** [await builder.single()] *)
Definition run_single (r : request) : world → response obj * world :=
  remote_call (λ w, let '(resp, w') := serve r w in (single_row resp, w')).

(** *** The auth service *)

(** Modelled from the spec: a round trip to the auth service.  Its replies
    always carry a data object, so that only [Failure] differs from an
    answered call. *)
Definition auth_call {A : Type} (none : A) (answer : world → response A * world)
    (w : world) : response A * world :=
  match next_reply w with
  | Answer | NoData => answer (after_reply w)
  | Failure e => (Response (Some none) (Some e), after_reply w)
  end.

(** Modelled from the spec: the account, if any, with these credentials. *)
Definition find_account (email password : string) (w : world) : option account :=
  head (filter (λ a, acc_email a = email ∧ acc_password a = password) (accounts w)).

(** Modelled from the spec: [supabase.auth.getSession()] of the auth
    service; the payload is [data.session]. *)
Definition auth_getSession : world → response (option user_session) * world :=
  auth_call None (λ w, (Response (Some (stored_session w)) None, w)).

(** Modelled from the spec: [supabase.auth.signInWithPassword] of the auth
    service, which issues a session for known credentials and rejects the
    others. *)
Definition auth_signInWithPassword (email password : string)
    : world → response (option user_session) * world :=
  auth_call None (λ w,
    match find_account email password w with
    | Some a =>
        (Response (Some (Some (acc_session a))) None,
         with_stored_session (Some (acc_session a)) w)
    | None =>
        (Response (Some None) (Some (RemoteError "Invalid login credentials")), w)
    end).

(** Modelled from the spec: [supabase.auth.signOut()] of the auth service. *)
Definition auth_signOut : world → response unit * world :=
  auth_call tt (λ w, (Response (Some tt) None, with_stored_session None w)).

(** ** Asynchronous code: state, exceptions, suspension points *)

(** A running component: its React state, the remote world, and the states
    that were on screen at the suspension points passed so far. *)
Record cfg (S : Type) : Type := Cfg {
  local : S;
  remote : world;
  frames : list S
}.
Arguments Cfg {S} _ _ _.
Arguments local {S} _.
Arguments remote {S} _.
Arguments frames {S} _.

Inductive outcome (A : Type) : Type :=
  | Ret (a : A)
  | Throw (e : remote_error).
Arguments Ret {A} _.
Arguments Throw {A} _.

Definition M (S A : Type) : Type := cfg S → outcome A * cfg S.

Definition ret {S A} (a : A) : M S A := λ c, (Ret a, c).

Definition bind {S A B} (m : M S A) (k : A → M S B) : M S B :=
  λ c, match m c with
       | (Ret a, c') => k a c'
       | (Throw e, c') => (Throw e, c')
       end.

Definition throw {S A} (e : remote_error) : M S A := λ c, (Throw e, c).

(** [try { m } catch (err) { h err }] *)
Definition try_catch {S A} (m : M S A) (h : remote_error → M S A) : M S A :=
  λ c, match m c with
       | (Ret a, c') => (Ret a, c')
       | (Throw e, c') => h e c'
       end.

(** [try { m } finally { f }] *)
Definition finally {S A} (m : M S A) (f : M S unit) : M S A :=
  λ c, match m c with
       | (o, c') =>
           match f c' with
           | (Ret _, c'') => (o, c'')
           | (Throw e, c'') => (Throw e, c'')
           end
       end.

(** A state setter of [useState]. *)
Definition set_state {S} (f : S → S) : M S unit :=
  λ c, (Ret tt, Cfg (f (local c)) (remote c) (frames c)).

(** [await call]: the function is suspended, the committed state is on
    screen, and the call's reply resumes it. *)
Definition await {S A} (call : world → A * world) : M S A :=
  λ c, let '(a, w') := call (remote c) in
       (Ret a, Cfg (local c) w' (frames c ++ [local c])).

(** Reading the current value of the state hooks. *)
Definition get_state {S} : M S S := λ c, (Ret (local c), c).

(** [v.slice(0, n)]: the first [n] characters of a string; a value that is
    no string has no [slice] method and the call throws a TypeError. *)
Definition js_slice_to {S} (n : nat) (v : jsval) : M S jsval :=
  match v with
  | JStr s => ret (JStr (String.substring 0 n s))
  | _ => throw (RemoteError "slice is not a function")
  end.

(** [new Date().toISOString()] *)
Definition now_iso {S} : M S string := λ c, (Ret (clock (remote c)), c).

Declare Scope prog_scope.
Delimit Scope prog_scope with prog.
Notation "x <- m ;; k" := (bind m (λ x, k))
  (at level 100, m at next level, right associativity) : prog_scope.
Notation "m ;;; k" := (bind m (λ _, k))
  (at level 100, right associativity) : prog_scope.
Open Scope prog_scope.

(** ** tasksService.js *)

Section TasksService.
Context {S : Type}.

Definition task_columns : list string :=
  ["id"; "title"; "description"; "status"; "due_date"; "employee_email";
   "created_at"].

(** [if (error) throw error; return data || []] *)
Definition rows_or_throw (resp : response (list obj)) : M S (list obj) :=
  match error resp with
  | Some e => throw e
  | None => ret (default [] (data resp))
  end.

(** [if (error) throw error] *)
Definition throw_on_error (resp : response (list obj)) : M S unit :=
  match error resp with
  | Some e => throw e
  | None => ret tt
  end.

Definition manager_tasks_query : request :=
  sb_order "created_at" false (sb_select task_columns "tasks").

Definition getTasksForManager : M S (list obj) :=
  resp <- await (run manager_tasks_query);;
  rows_or_throw resp.

Definition employee_tasks_query (email : string) : request :=
  sb_order "created_at" false
    (sb_eq "employee_email" (JStr email) (sb_select task_columns "tasks")).

Definition getTasksForEmployee (email : string) : M S (list obj) :=
  resp <- await (run (employee_tasks_query email));;
  rows_or_throw resp.

Definition createTask (task : obj) : M S unit :=
  resp <- await (run (sb_insert
            [object [("title", get task "title");
                     ("description", get task "description");
                     ("status", get task "status");
                     ("due_date", js_or (get task "due_date") JNull);
                     ("employee_email", get task "employee_email")]]
            "tasks"));;
  throw_on_error resp.

Definition updateTask (task : obj) : M S unit :=
  resp <- await (run (sb_eq "id" (get task "id")
            (sb_update
               (object [("title", get task "title");
                        ("description", get task "description");
                        ("status", get task "status");
                        ("due_date", js_or (get task "due_date") JNull);
                        ("employee_email", get task "employee_email")])
               "tasks")));;
  throw_on_error resp.

Definition updateTaskStatus (id status : jsval) : M S unit :=
  let fields : obj := object [("status", status)] in
  fields <- (if js_strict_eq status (JStr "done")
             then (now <- now_iso;;
                   ret (<["completed_at" := JStr now]> fields))
             else ret fields);;
  resp <- await (run (sb_eq "id" id (sb_update fields "tasks")));;
  throw_on_error resp.

Definition deleteTask (id : jsval) : M S unit :=
  resp <- await (run (sb_eq "id" id (sb_delete "tasks")));;
  throw_on_error resp.
End TasksService.

(** ** App.jsx: the session and role resolver *)

Module App.

Record state : Type := State {
  session : option user_session;
  profile : option obj;
  loading : bool;
  error : string
}.

(** The initial values of the [useState] hooks. *)
Definition init : state := State None None true "".

Definition setSession (v : option user_session) : M state unit :=
  set_state (λ s, State v (profile s) (loading s) (error s)).
Definition setProfile (v : option obj) : M state unit :=
  set_state (λ s, State (session s) v (loading s) (error s)).
Definition setLoading (v : bool) : M state unit :=
  set_state (λ s, State (session s) (profile s) v (error s)).
Definition setError (v : string) : M state unit :=
  set_state (λ s, State (session s) (profile s) (loading s) v).

Definition fetchProfile (userId : string) : M state unit :=
  resp <- await (run_single (sb_eq "id" (JStr userId)
                               (sb_select ["id"; "full_name"; "role"] "profiles")));;
  let '(Response data profileError) := resp in
  match profileError with
  | Some _ => setProfile None
  | None => setProfile data
  end.

Definition loadInitialSession : M state unit :=
  resp <- await auth_getSession;;
  let '(Response data sessionError) := resp in
  let currentSession := default None data in
  setSession currentSession;;;
  (match currentSession with
   | Some s => fetchProfile (user_id s)
   | None => ret tt
   end);;;
  setLoading false.

(** The listener registered with [supabase.auth.onAuthStateChange]. *)
Definition onAuthStateChange (newSession : option user_session) : M state unit :=
  setSession newSession;;;
  match newSession with
  | Some s => fetchProfile (user_id s)
  | None => setProfile None
  end.

(** [email] and [password] are the values of the submitted form. *)
Definition handleLogin (email password : string) : M state unit :=
  setError "";;;
  resp <- await (auth_signInWithPassword email password);;
  let '(Response data signInError) := resp in
  match signInError with
  | Some e => setError (message e)
  | None =>
      let s := default None data in
      setSession s;;;
      match s with
      | Some u => fetchProfile (user_id u)
      | None => ret tt
      end
  end.

Definition handleLogout : M state unit :=
  await auth_signOut;;;
  setSession None;;;
  setProfile None.

(** What the component returns. *)
Inductive view : Type :=
  | ShowLoading
  | ShowLoginForm (error : string)
  | ShowManagerDashboard
  | ShowEmployeeDashboard (userEmail : string).

(** [profile?.role] *)
Definition profile_role (p : option obj) : jsval :=
  match p with
  | None => JUndefined
  | Some o => get o "role"
  end.

Definition render (st : state) : view :=
  if loading st then ShowLoading
  else match session st with
       | None => ShowLoginForm (error st)
       | Some s =>
           if js_strict_eq (profile_role (profile st)) (JStr "manager")
           then ShowManagerDashboard
           else ShowEmployeeDashboard (user_email s)
       end.

(** [LoginForm]: [{error && <p className="error-text">{error}</p>}] *)
Definition error_text (error : string) : option string :=
  if truthy (JStr error) then Some error else None.

Definition shows_dashboard (v : view) : bool :=
  match v with
  | ShowManagerDashboard | ShowEmployeeDashboard _ => true
  | _ => false
  end.

End App.

(** ** App.jsx: the manager dashboard *)

Module ManagerDashboard.

Record state : Type := State {
  employees : list obj;
  loading : bool;
  error : string;
  editingEmployee : option obj;
  tasks : list obj;
  tasksLoading : bool;
  tasksError : string;
  editingTask : option obj
}.

Definition init : state := State [] true "" None [] true "" None.

Definition setEmployees (v : list obj) : M state unit :=
  set_state (λ s, State v (loading s) (error s) (editingEmployee s)
                    (tasks s) (tasksLoading s) (tasksError s) (editingTask s)).
Definition setLoading (v : bool) : M state unit :=
  set_state (λ s, State (employees s) v (error s) (editingEmployee s)
                    (tasks s) (tasksLoading s) (tasksError s) (editingTask s)).
Definition setError (v : string) : M state unit :=
  set_state (λ s, State (employees s) (loading s) v (editingEmployee s)
                    (tasks s) (tasksLoading s) (tasksError s) (editingTask s)).
Definition setEditingEmployee (v : option obj) : M state unit :=
  set_state (λ s, State (employees s) (loading s) (error s) v
                    (tasks s) (tasksLoading s) (tasksError s) (editingTask s)).
Definition setTasks (v : list obj) : M state unit :=
  set_state (λ s, State (employees s) (loading s) (error s) (editingEmployee s)
                    v (tasksLoading s) (tasksError s) (editingTask s)).
Definition setTasksLoading (v : bool) : M state unit :=
  set_state (λ s, State (employees s) (loading s) (error s) (editingEmployee s)
                    (tasks s) v (tasksError s) (editingTask s)).
Definition setTasksError (v : string) : M state unit :=
  set_state (λ s, State (employees s) (loading s) (error s) (editingEmployee s)
                    (tasks s) (tasksLoading s) v (editingTask s)).
Definition setEditingTask (v : option obj) : M state unit :=
  set_state (λ s, State (employees s) (loading s) (error s) (editingEmployee s)
                    (tasks s) (tasksLoading s) (tasksError s) v).

Definition employee_columns : list string :=
  ["id"; "full_name"; "email"; "role"; "status"].

Definition loadEmployees : M state unit :=
  setLoading true;;;
  setError "";;;
  resp <- await (run (sb_order "full_name" true
                        (sb_select employee_columns "employees")));;
  let '(Response data employeesError) := resp in
  match employeesError with
  | Some _ =>
      setError "Could not load employees";;;
      setLoading false
  | None =>
      setEmployees (default [] data);;;
      setLoading false
  end.

Definition loadTasks : M state unit :=
  setTasksLoading true;;;
  setTasksError "";;;
  finally
    (try_catch
       (allTasks <- getTasksForManager;;
        setTasks allTasks)
       (λ err, setTasksError "Could not load tasks"))
    (setTasksLoading false).

Definition saveTask (taskValues : obj) : M state unit :=
  setTasksError "";;;
  try_catch
    ((if truthy (get taskValues "id")
      then updateTask taskValues
      else createTask taskValues);;;
     setEditingTask None;;;
     loadTasks)
    (λ err, setTasksError "Could not save task").

(** [confirmDelete] is the answer to [window.confirm]. *)
Definition handleDeleteTask (confirmDelete : bool) (id : jsval) : M state unit :=
  if negb confirmDelete then ret tt
  else
    try_catch
      (deleteTask id;;;
       loadTasks)
      (λ err, setTasksError "Could not delete task").

Definition saveEmployee (formValues : obj) : M state unit :=
  setError "";;;
  let record := object [("full_name", get formValues "full_name");
                        ("email", get formValues "email");
                        ("role", get formValues "role");
                        ("status", get formValues "status")] in
  if truthy (get formValues "id") then
    resp <- await (run (sb_eq "id" (get formValues "id")
                          (sb_update record "employees")));;
    let '(Response _ updateError) := resp in
    match updateError with
    | Some _ => setError "Could not update employee"
    | None => setEditingEmployee None;;; loadEmployees
    end
  else
    resp <- await (run (sb_insert [record] "employees"));;
    let '(Response _ insertError) := resp in
    match insertError with
    | Some _ => setError "Could not create employee"
    | None => setEditingEmployee None;;; loadEmployees
    end.

(** [startCreate]: the empty skeleton of the employee form. *)
Definition startCreate : M state unit :=
  setEditingEmployee
    (Some (object [("id", JNull); ("full_name", JStr ""); ("email", JStr "");
                   ("role", JStr "employee"); ("status", JStr "active")])).

(** [employees[0]?.email || ''] *)
Definition firstEmployeeEmail (employees : list obj) : jsval :=
  js_or (match employees with
         | [] => JUndefined
         | first :: _ => get first "email"
         end)
        (JStr "").

Definition startCreateTask : M state unit :=
  st <- get_state;;
  setEditingTask
    (Some (object [("id", JNull); ("title", JStr ""); ("description", JStr "");
                   ("status", JStr "todo"); ("due_date", JStr "");
                   ("employee_email", firstEmployeeEmail (employees st))])).

(** [{...task, due_date: task.due_date ? task.due_date.slice(0, 10) : ''}] *)
Definition startEditTask (task : obj) : M state unit :=
  due <- (if truthy (get task "due_date")
          then js_slice_to 10 (get task "due_date")
          else ret (JStr ""));;
  setEditingTask (Some (<["due_date" := due]> task)).

Definition startEdit (employee : obj) : M state unit :=
  setEditingEmployee (Some employee).

(** One list of the dashboard, as the component returns it: the loading
    note, the inline error, the note for an empty list, the table rows. *)
Record section_view : Type := SectionView {
  loading_note : bool;              (* [{loading && <p>Loading ...</p>}] *)
  error_note : option string;       (* [{error && <p ...>{error}</p>}] *)
  empty_note : bool;                (* [{!loading && list.length === 0 && ...}] *)
  table_rows : option (list obj)    (* [{!loading && list.length > 0 && <table>}] *)
}.

Definition render_section (loading : bool) (error : string) (rows : list obj)
    : section_view :=
  SectionView loading
    (if truthy (JStr error) then Some error else None)
    (negb loading && bool_decide (length rows = 0%nat))
    (if negb loading && bool_decide (0 < length rows)%nat then Some rows else None).

Record view : Type := View {
  employees_part : section_view;
  employee_form : option obj;       (* [{editingEmployee && <EmployeeForm .../>}] *)
  tasks_part : section_view;
  task_form : option obj            (* [{editingTask && <TaskForm .../>}] *)
}.

Definition render (st : state) : view :=
  View (render_section (loading st) (error st) (employees st))
       (editingEmployee st)
       (render_section (tasksLoading st) (tasksError st) (tasks st))
       (editingTask st).

End ManagerDashboard.

(** ** App.jsx: the forms *)

(** [EmployeeForm] and [TaskForm] hold the form values in a state hook of
    their own, initialised with the record they are given. *)
Module Form.

(** [setFormValues((current) => ({ ...current, [name]: value }))]; the
    value of an input is a string. *)
Definition handleChange (name value : string) : M obj unit :=
  set_state (λ current, <[name := JStr value]> current).

(** [onSave(formValues)], with the parent's handler *)
Definition handleSubmit {P : Type} (formValues : obj) (onSave : obj → M P unit)
    : M P unit :=
  onSave formValues.

(** The inputs of the two forms, by their [name] attribute. *)
Definition task_inputs : list string :=
  ["title"; "description"; "employee_email"; "status"; "due_date"].
Definition employee_inputs : list string :=
  ["full_name"; "email"; "role"; "status"].

(** A sequence of [onChange] events, oldest first. *)
Fixpoint input_events (events : list (string * string)) : M obj unit :=
  match events with
  | [] => ret tt
  | (name, value) :: rest => handleChange name value;;; input_events rest
  end.

(** [{task.id ? 'Edit Task' : 'Add Task'}] *)
Definition task_heading (task : obj) : string :=
  if truthy (get task "id") then "Edit Task" else "Add Task".

(** [{employee.id ? 'Edit Employee' : 'Add Employee'}] *)
Definition employee_heading (employee : obj) : string :=
  if truthy (get employee "id") then "Edit Employee" else "Add Employee".

End Form.

(** ** App.jsx: the employee dashboard *)

Module EmployeeDashboard.

Record state : Type := State {
  employee : option obj;
  loading : bool;
  error : string;
  tasks : list obj;
  tasksLoading : bool;
  tasksError : string
}.

Definition init : state := State None true "" [] true "".

Definition setEmployee (v : option obj) : M state unit :=
  set_state (λ s, State v (loading s) (error s) (tasks s) (tasksLoading s) (tasksError s)).
Definition setLoading (v : bool) : M state unit :=
  set_state (λ s, State (employee s) v (error s) (tasks s) (tasksLoading s) (tasksError s)).
Definition setError (v : string) : M state unit :=
  set_state (λ s, State (employee s) (loading s) v (tasks s) (tasksLoading s) (tasksError s)).
Definition setTasks (v : list obj) : M state unit :=
  set_state (λ s, State (employee s) (loading s) (error s) v (tasksLoading s) (tasksError s)).
Definition setTasksLoading (v : bool) : M state unit :=
  set_state (λ s, State (employee s) (loading s) (error s) (tasks s) v (tasksError s)).
Definition setTasksError (v : string) : M state unit :=
  set_state (λ s, State (employee s) (loading s) (error s) (tasks s) (tasksLoading s) v).

Definition employee_query (userEmail : string) : request :=
  sb_eq "email" (JStr userEmail)
    (sb_select ["id"; "full_name"; "email"; "role"; "status"] "employees").

Definition loadEmployee (userEmail : string) : M state unit :=
  setLoading true;;;
  setError "";;;
  resp <- await (run_single (employee_query userEmail));;
  let '(Response data employeeError) := resp in
  match employeeError with
  | Some _ =>
      setError "Could not load your employee record";;;
      setLoading false
  | None =>
      setEmployee data;;;
      setLoading false
  end.

Definition loadEmployeeTasks (userEmail : string) : M state unit :=
  setTasksLoading true;;;
  setTasksError "";;;
  finally
    (try_catch
       (myTasks <- getTasksForEmployee userEmail;;
        setTasks myTasks)
       (λ err, setTasksError "Could not load your tasks"))
    (setTasksLoading false).

Definition handleStatusChange (userEmail : string) (id newStatus : jsval)
    : M state unit :=
  try_catch
    (updateTaskStatus id newStatus;;;
     myTasks <- getTasksForEmployee userEmail;;
     setTasks myTasks)
    (λ err, setTasksError "Could not update task status").

(** The profile part of what the component returns. *)
Record view : Type := View {
  loading_text : bool;            (* [{loading && <p>Loading...</p>}] *)
  error_text : option string;     (* [{error && <p ...>{error}</p>}] *)
  profile_card : option obj       (* [{!loading && employee && <div ...>}] *)
}.

Definition render (st : state) : view :=
  View (loading st)
       (if truthy (JStr (error st)) then Some (error st) else None)
       (if loading st then None else employee st).

End EmployeeDashboard.

(** * Vocabulary of the properties *)

(** The configuration in which a function resumes after one [await]. *)
Definition resumed {S : Type} (c : cfg S) (w' : world) : cfg S :=
  Cfg (local c) w' (frames c ++ [local c]).

(** Whether the next round trip fails. *)
Definition is_failure (m : reply_mode) : bool :=
  match m with
  | Failure _ => true
  | _ => false
  end.

(** The body of the update that [updateTaskStatus] sends. *)
Definition status_fields (status : jsval) (now : string) : obj :=
  if js_strict_eq status (JStr "done")
  then <["completed_at" := JStr now]> (object [("status", status)])
  else object [("status", status)].

(** The record that [createTask] inserts and [updateTask] sends as patch. *)
Definition task_record (task : obj) : obj :=
  object [("title", get task "title");
          ("description", get task "description");
          ("status", get task "status");
          ("due_date", js_or (get task "due_date") JNull);
          ("employee_email", get task "employee_email")].

(** The text fields that the record copies from the form values. *)
Definition copied_fields : list string :=
  ["title"; "description"; "status"; "employee_email"].

(** A due date as the data model has it: absent, null, or a date string. *)
Definition date_input (v : jsval) : Prop :=
  match v with
  | JUndefined | JNull | JStr _ => True
  | JBool _ | JNum _ => False
  end.

(** A due date that the form left out: the property is missing or is the
    empty string. *)
Definition absent_or_empty (v : jsval) : Prop := v = JUndefined ∨ v = JStr "".

Global Instance absent_or_empty_dec v : Decision (absent_or_empty v).
Proof. unfold absent_or_empty. apply _. Defined.

(** The due date to be stored, in the words of the specification: null when
    the supplied one is absent or empty, the supplied value otherwise. *)
Definition normalized_due_date (task : obj) : jsval :=
  if decide (absent_or_empty (get task "due_date")) then JNull
  else get task "due_date".

(** The query of [fetchProfile]. *)
Definition profile_query (userId : string) : request :=
  sb_eq "id" (JStr userId) (sb_select ["id"; "full_name"; "role"] "profiles").

(** The employees section is as it was. *)
Definition employees_section_kept (st st' : ManagerDashboard.state) : Prop :=
  ManagerDashboard.employees st' = ManagerDashboard.employees st ∧
  ManagerDashboard.error st' = ManagerDashboard.error st ∧
  ManagerDashboard.editingEmployee st' = ManagerDashboard.editingEmployee st ∧
  ManagerDashboard.loading st' = ManagerDashboard.loading st.

(** The tasks section is as it was. *)
Definition tasks_section_kept (st st' : ManagerDashboard.state) : Prop :=
  ManagerDashboard.tasks st' = ManagerDashboard.tasks st ∧
  ManagerDashboard.tasksError st' = ManagerDashboard.tasksError st ∧
  ManagerDashboard.editingTask st' = ManagerDashboard.editingTask st ∧
  ManagerDashboard.tasksLoading st' = ManagerDashboard.tasksLoading st.

(** A failed operation of the employees section: its error message is set,
    its list and form are kept, and the tasks section is untouched. *)
Definition employees_failed (msg : string) (st st' : ManagerDashboard.state) : Prop :=
  ManagerDashboard.error st' = msg ∧
  ManagerDashboard.employees st' = ManagerDashboard.employees st ∧
  ManagerDashboard.editingEmployee st' = ManagerDashboard.editingEmployee st ∧
  tasks_section_kept st st'.

(** A failed operation of the tasks section. *)
Definition tasks_failed (msg : string) (st st' : ManagerDashboard.state) : Prop :=
  ManagerDashboard.tasksError st' = msg ∧
  ManagerDashboard.tasks st' = ManagerDashboard.tasks st ∧
  ManagerDashboard.editingTask st' = ManagerDashboard.editingTask st ∧
  employees_section_kept st st'.

(** The stored employee records whose email is the caller's. *)
Definition matching_employees (userEmail : string) (w : world) : list obj :=
  filter (λ r, r !! "email" = Some (JStr userEmail)) (table "employees" w).

(** The columns that the self-lookup selects. *)
Definition profile_columns : list string :=
  ["id"; "full_name"; "email"; "role"; "status"].

(** The listed rows reflect column [col] of the store: each of them shows,
    for the stored task with its id, the value that the store holds. *)
Definition reflects (col : string) (listed stored : list obj) : Prop :=
  Forall (λ r, Exists (λ t, column t "id" = get r "id" ∧
                            get r col = column t col) stored) listed.

(** The tasks table once the status update has been applied. *)
Definition tasks_after_update (id : jsval) (status : string) (w : world)
    : list obj :=
  apply_patch (to_json (status_fields (JStr status) (clock w))) [("id", id)]
    <$> table "tasks" w.

(** The call threw [e] and changed neither the component state nor any
    table of the store. *)
Definition propagates {S A : Type} (e : remote_error) (c : cfg S)
    (r : outcome A * cfg S) : Prop :=
  r.1 = Throw e ∧
  local r.2 = local c ∧
  ∀ t, table t (remote r.2) = table t (remote c).

(** The primary keys of a table, row by row. *)
Definition row_ids (rows : list obj) : list (option jsval) :=
  (λ t, t !! "id") <$> rows.

(** The profile that [fetchProfile] resolves in a world. *)
Definition resolved_profile (userId : string) (w : world) : option obj :=
  let reply := (run_single (profile_query userId) w).1 in
  match error reply with
  | Some _ => None
  | None => data reply
  end.

(** The query of [loadEmployees]. *)
Definition employees_query : request :=
  Request "employees" (Select ManagerDashboard.employee_columns) []
          (Some ("full_name", true)).

(** The row that the store makes of an inserted record. *)
Definition inserted_row (body : obj) (w : world) : obj :=
  to_json body ∪ object [("id", JNum (fresh_id w)); ("created_at", JStr (clock w))].

(** The tasks table once [saveTask] has stored the form values: an update
    of the rows with the form's id when that id is truthy, one more row
    otherwise. *)
Definition saved_tasks (taskValues : obj) (w : world) : list obj :=
  if truthy (get taskValues "id")
  then apply_patch (to_json (task_record taskValues))
         [("id", get taskValues "id")] <$> table "tasks" w
  else table "tasks" w ++ [inserted_row (task_record taskValues) w].

(** The request that [saveTask] sends first. *)
Definition save_request (taskValues : obj) : request :=
  if truthy (get taskValues "id")
  then Request "tasks" (Update (task_record taskValues))
               [("id", get taskValues "id")] None
  else Request "tasks" (Insert [task_record taskValues]) [] None.

(** The dashboard at the moment [saveTask] starts its reload. *)
Definition after_save (taskValues : obj) (c : cfg ManagerDashboard.state)
    : cfg ManagerDashboard.state :=
  Cfg (ManagerDashboard.State
         (ManagerDashboard.employees (local c))
         (ManagerDashboard.loading (local c))
         (ManagerDashboard.error (local c))
         (ManagerDashboard.editingEmployee (local c))
         (ManagerDashboard.tasks (local c))
         (ManagerDashboard.tasksLoading (local c))
         "" None)
      (run (save_request taskValues) (remote c)).2
      (frames c ++
       [ManagerDashboard.State
          (ManagerDashboard.employees (local c))
          (ManagerDashboard.loading (local c))
          (ManagerDashboard.error (local c))
          (ManagerDashboard.editingEmployee (local c))
          (ManagerDashboard.tasks (local c))
          (ManagerDashboard.tasksLoading (local c))
          "" (ManagerDashboard.editingTask (local c))]).

(** The record that [saveEmployee] stores. *)
Definition employee_record (formValues : obj) : obj :=
  object [("full_name", get formValues "full_name");
          ("email", get formValues "email");
          ("role", get formValues "role");
          ("status", get formValues "status")].

(** The request that [saveEmployee] sends first. *)
Definition save_employee_request (formValues : obj) : request :=
  if truthy (get formValues "id")
  then Request "employees" (Update (employee_record formValues))
               [("id", get formValues "id")] None
  else Request "employees" (Insert [employee_record formValues]) [] None.

(** The employees table once [saveEmployee] has stored the form values. *)
Definition saved_employees (formValues : obj) (w : world) : list obj :=
  if truthy (get formValues "id")
  then apply_patch (to_json (employee_record formValues))
         [("id", get formValues "id")] <$> table "employees" w
  else table "employees" w ++ [inserted_row (employee_record formValues) w].

(** The dashboard at the moment [saveEmployee] starts its reload. *)
Definition after_employee_save (formValues : obj) (c : cfg ManagerDashboard.state)
    : cfg ManagerDashboard.state :=
  Cfg (ManagerDashboard.State
         (ManagerDashboard.employees (local c))
         (ManagerDashboard.loading (local c))
         "" None
         (ManagerDashboard.tasks (local c))
         (ManagerDashboard.tasksLoading (local c))
         (ManagerDashboard.tasksError (local c))
         (ManagerDashboard.editingTask (local c)))
      (run (save_employee_request formValues) (remote c)).2
      (frames c ++
       [ManagerDashboard.State
          (ManagerDashboard.employees (local c))
          (ManagerDashboard.loading (local c))
          "" (ManagerDashboard.editingEmployee (local c))
          (ManagerDashboard.tasks (local c))
          (ManagerDashboard.tasksLoading (local c))
          (ManagerDashboard.tasksError (local c))
          (ManagerDashboard.editingTask (local c))]).

(** The dashboard at the moment a confirmed [handleDeleteTask] starts its
    reload. *)
Definition after_delete (id : jsval) (c : cfg ManagerDashboard.state)
    : cfg ManagerDashboard.state :=
  resumed c (run (Request "tasks" Delete [("id", id)] None) (remote c)).2.

(** The due date that [startEditTask] puts into the form: the first ten
    characters of a date string, the empty string for no date. *)
Definition date_in_form (v : jsval) : jsval :=
  match v with
  | JStr s => JStr (String.substring 0 10 s)
  | _ => JStr ""
  end.

(** The form that [startEditTask] opens on the listed row of a stored
    task. *)
Definition edit_form (t : obj) : obj :=
  <["due_date" := date_in_form (column t "due_date")]> (project task_columns t).

(** The due date that is stored when that form is saved unchanged. *)
Definition date_part (v : jsval) : jsval :=
  match v with
  | JStr s => if String.eqb s "" then JNull else JStr (String.substring 0 10 s)
  | _ => JNull
  end.

(** The manager dashboard with a task form open. *)
Definition with_task_form (form : obj) (c : cfg ManagerDashboard.state)
    : cfg ManagerDashboard.state :=
  Cfg (ManagerDashboard.State
         (ManagerDashboard.employees (local c))
         (ManagerDashboard.loading (local c))
         (ManagerDashboard.error (local c))
         (ManagerDashboard.editingEmployee (local c))
         (ManagerDashboard.tasks (local c))
         (ManagerDashboard.tasksLoading (local c))
         (ManagerDashboard.tasksError (local c))
         (Some form))
      (remote c) (frames c).

(** The skeleton that [startCreateTask] opens. *)
Definition new_task_skeleton (employees : list obj) : obj :=
  object [("id", JNull); ("title", JStr ""); ("description", JStr "");
          ("status", JStr "todo"); ("due_date", JStr "");
          ("employee_email", ManagerDashboard.firstEmployeeEmail employees)].

(** * Sample data *)

(** A stored task row. *)
Definition task (id : Z) (title status email created : string) : obj :=
  object [("id", JNum id); ("title", JStr title); ("description", JNull);
          ("status", JStr status); ("due_date", JNull);
          ("employee_email", JStr email); ("created_at", JStr created);
          ("completed_at", JNull)].

Definition sample_tasks : list obj :=
  [task 1 "Write report" "todo" "ann@example.com" "2024-01-01T09:00:00+00:00";
   task 2 "Review budget" "todo" "bob@example.com" "2024-01-03T09:00:00+00:00";
   task 3 "Plan sprint" "in_progress" "ann@example.com" "2024-01-02T09:00:00+00:00"].

(** Ann: a manager by profile, with an employee record of her own. *)
Definition ann_session : user_session := Session "u-1" "ann@example.com".

Definition ann_profile : obj :=
  object [("id", JStr "u-1"); ("full_name", JStr "Ann"); ("role", JStr "manager")].

Definition ann_record : obj :=
  object [("id", JStr "e-1"); ("full_name", JStr "Ann"); ("email", JStr "ann@example.com");
          ("role", JStr "employee"); ("status", JStr "active")].

(** A store with three tasks, one profile and one employee record; Ann has
    an account and [signed_in] tells whether the client holds her session. *)
Definition sample_world (signed_in : bool) (replies : list reply_mode) : world :=
  World {[ "tasks" := sample_tasks;
           "profiles" := [ann_profile];
           "employees" := [ann_record] ]}
        [Account "ann@example.com" "correct horse" ann_session]
        (if signed_in then Some ann_session else None)
        4 "2024-02-01T12:00:00.000Z" replies.

(** A component that is about to run a handler. *)
Definition start {S : Type} (st : S) (w : world) : cfg S := Cfg st w [].


(** The form values of a new task without a due date. *)
Definition new_task_form : obj :=
  object [("id", JNull); ("title", JStr "File expenses"); ("description", JStr "");
          ("status", JStr "todo"); ("due_date", JStr "");
          ("employee_email", JStr "ann@example.com")].

(** Ann's dashboard as the product of a finished load. *)
Definition manager_view : App.state :=
  App.State (Some ann_session) (Some ann_profile) false "".

(** The login form, once the initial load found no session. *)
Definition login_screen : App.state := App.State None None false "".

(** Ann marks her first task as done from her dashboard. *)
Definition ann_dashboard : EmployeeDashboard.state :=
  EmployeeDashboard.State (Some ann_record) false "" [] false "".

(** The dashboard after that status change. *)
Definition status_change_run : cfg EmployeeDashboard.state :=
  (EmployeeDashboard.handleStatusChange "ann@example.com" (JNum 1) (JStr "done")
     (start ann_dashboard (sample_world true []))).2.

(** A manager dashboard with loaded lists and an open task form. *)
Definition manager_dashboard : ManagerDashboard.state :=
  ManagerDashboard.State [ann_record] false "" None
                         sample_tasks false "" (Some new_task_form).

(** A remote failure. *)
Definition timeout_error : remote_error := RemoteError "request timed out".

(** The form values of task 1 with a new title. *)
Definition report_edit : obj :=
  object [("id", JNum 1); ("title", JStr "Write annual report");
          ("description", JStr ""); ("status", JStr "todo"); ("due_date", JStr "");
          ("employee_email", JStr "ann@example.com")].

(** The form values of a new employee, and of Ann promoted. *)
Definition bob_form : obj :=
  object [("id", JNull); ("full_name", JStr "Bob"); ("email", JStr "bob@example.com");
          ("role", JStr "employee"); ("status", JStr "active")].

Definition ann_promoted : obj := <["role" := JStr "manager"]> ann_record.

(** Ann's account. *)
Definition ann_account : account :=
  Account "ann@example.com" "correct horse" ann_session.

(** The first of the sample tasks. *)
Definition first_task : obj :=
  task 1 "Write report" "todo" "ann@example.com" "2024-01-01T09:00:00+00:00".

(** The effect of [EmployeeDashboard] runs [loadEmployee] on mount and
    again whenever [userEmail] changes ([useEffect(..., [userEmail])]).
    Here: the dashboard mounted for Ann, once her record is loaded, ... *)
Definition mounted_for_ann : cfg EmployeeDashboard.state :=
  (EmployeeDashboard.loadEmployee "ann@example.com"
     (start EmployeeDashboard.init (sample_world true []))).2.

(** ... and the same dashboard after the session email has changed to
    Zoe's, who has no employee record. *)
Definition changed_to_zoe : cfg EmployeeDashboard.state :=
  (EmployeeDashboard.loadEmployee "zoe@example.com" mounted_for_ann).2.

(** The resolver holding Ann's profile when the profile of a user without
    profile row is fetched. *)
Definition refetched_profile : cfg App.state :=
  (App.fetchProfile "u-9" (start manager_view (sample_world true []))).2.

(** * Properties *)

(** ** The ordering of column values *)

Lemma val_le_total (a b : jsval) : val_le a b ∨ val_le b a.
Proof.
  unfold val_le.
  destruct a as [| |x|x|x], b as [| |y|y|y]; simpl; auto.
  - destruct x, y; auto.
  - destruct (Z.le_ge_cases x y); [left | right]; by apply Z.leb_le.
  - apply String.leb_total.
Qed.

Lemma val_le_trans (a b c : jsval) : val_le a b → val_le b c → val_le a c.
Proof.
  unfold val_le.
  destruct a as [| |x|x|x], b as [| |y|y|y], c as [| |z|z|z];
    simpl; try done.
  - destruct x, y, z; done.
  - rewrite !Z.leb_le. lia.
  - intros H1%Is_true_true H2%Is_true_true. apply Is_true_true.
    change (String.le x z). by trans y.
Qed.

Global Instance row_before_total c asc : Total (row_before c asc).
Proof. intros x y. unfold row_before. destruct asc; apply val_le_total. Qed.

Global Instance row_before_trans c asc : Transitive (row_before c asc).
Proof.
  intros x y z. unfold row_before.
  destruct asc; eauto using val_le_trans.
Qed.

(** ** Objects, projections and patches *)

Lemma project_cons (c : string) (cs : list string) (r : obj) :
  project (c :: cs) r = <[c := column r c]> (project cs r).
Proof. reflexivity. Qed.

Lemma lookup_project (cs : list string) (r : obj) (c : string) :
  project cs r !! c = if decide (c ∈ cs) then Some (column r c) else None.
Proof.
  induction cs as [|d cs IH].
  - rewrite decide_False by apply not_elem_of_nil. apply lookup_empty.
  - rewrite project_cons. destruct (decide (d = c)) as [->|Hne].
    + rewrite lookup_insert_eq, decide_True; [done | left].
    + rewrite lookup_insert_ne by done. rewrite IH.
      destruct (decide (c ∈ cs)) as [Hin|Hnin].
      * rewrite decide_True; [done | by right].
      * rewrite decide_False; [done |].
        intros [?|?]%elem_of_cons; congruence.
Qed.

Lemma column_project (cs : list string) (r : obj) (c : string) :
  c ∈ cs → column (project cs r) c = column r c.
Proof.
  intros Hin. unfold column at 1. rewrite lookup_project.
  by rewrite decide_True.
Qed.

Lemma get_project (cs : list string) (r : obj) (c : string) :
  get (project cs r) c = if decide (c ∈ cs) then column r c else JUndefined.
Proof. unfold get. rewrite lookup_project. by destruct (decide _). Qed.

Lemma lookup_to_json (o : obj) (k : string) :
  to_json o !! k = match o !! k with
                   | Some JUndefined => None
                   | other => other
                   end.
Proof.
  unfold to_json. destruct (o !! k) as [v|] eqn:Hk.
  - destruct (decide (v = JUndefined)) as [->|Hv].
    + apply map_lookup_filter_None. right. intros x Hx. simpl. congruence.
    + transitivity (Some v); [| by destruct v].
      apply map_lookup_filter_Some. done.
  - apply map_lookup_filter_None. by left.
Qed.

Lemma matches_single (c : string) (v : jsval) (r : obj) :
  matches [(c, v)] r = true ↔ v ≠ JNull ∧ v ≠ JUndefined ∧ r !! c = Some v.
Proof.
  unfold matches, eq_filter. simpl. rewrite andb_true_r.
  apply bool_decide_eq_true.
Qed.

(** ** Running the service functions *)

Section ServiceRuns.
Context {S : Type}.
Implicit Types (c : cfg S) (w : world).

Lemma await_run {A} (call : world → A * world) c :
  await call c = (Ret (call (remote c)).1, resumed c (call (remote c)).2).
Proof. unfold await, resumed. by destruct (call (remote c)). Qed.

Lemma run_Answer (r : request) w :
  next_reply w = Answer → run r w = serve r (after_reply w).
Proof. unfold run, remote_call. by intros ->. Qed.

Lemma run_Failure (r : request) w (e : remote_error) :
  next_reply w = Failure e →
  run r w = (Response None (Some e), after_reply w).
Proof. unfold run, remote_call. by intros ->. Qed.

Lemma run_NoData (r : request) w :
  next_reply w = NoData →
  run r w = (Response None (error (serve r (after_reply w)).1),
             (serve r (after_reply w)).2).
Proof.
  unfold run, remote_call. intros ->.
  by destruct (serve r (after_reply w)).
Qed.

(** A query never fails in the store itself and leaves it as it is. *)
Lemma serve_Select t cols fs o w :
  serve (Request t (Select cols) fs o) w =
    (Response (Some (project cols <$>
                       order_rows o (filter (λ x, matches fs x = true) (table t w))))
              None, w).
Proof. reflexivity. Qed.

Lemma manager_tasks_query_eq :
  manager_tasks_query =
    Request "tasks" (Select task_columns) [] (Some ("created_at", false)).
Proof. reflexivity. Qed.

Lemma employee_tasks_query_eq (email : string) :
  employee_tasks_query email =
    Request "tasks" (Select task_columns) [("employee_email", JStr email)]
            (Some ("created_at", false)).
Proof. reflexivity. Qed.

Lemma getTasksForManager_run c :
  getTasksForManager c =
    rows_or_throw (run manager_tasks_query (remote c)).1
      (resumed c (run manager_tasks_query (remote c)).2).
Proof.
  unfold getTasksForManager, bind. by rewrite await_run.
Qed.

Lemma getTasksForEmployee_run (email : string) c :
  getTasksForEmployee email c =
    rows_or_throw (run (employee_tasks_query email) (remote c)).1
      (resumed c (run (employee_tasks_query email) (remote c)).2).
Proof.
  unfold getTasksForEmployee, bind. by rewrite await_run.
Qed.
End ServiceRuns.

(** ** Listing tasks *)

Section Listing.
Context {S : Type}.
Implicit Types (c : cfg S).

Lemma project_sorted (cs : list string) (col : string) (asc : bool) (rows : list obj) :
  col ∈ cs →
  StronglySorted (row_before col asc) (project cs <$> merge_sort (row_before col asc) rows).
Proof.
  intros Hin.
  apply (StronglySorted_fmap _ (row_before col asc)).
  - intros x y. unfold row_before. by rewrite !column_project.
  - apply StronglySorted_merge_sort; apply _.
Qed.

Lemma employee_filter (email : string) (rows : list obj) :
  filter (λ x, matches [("employee_email", JStr email)] x = true) rows =
  filter (λ t, t !! "employee_email" = Some (JStr email)) rows.
Proof.
  apply list_filter_iff. intros x. rewrite matches_single.
  split; [by intros (_ & _ & ?) | by intros ?].
Qed.

Lemma manager_filter (rows : list obj) :
  filter (λ x : obj, matches [] x = true) rows = rows.
Proof.
  induction rows as [|r rows IH]; [done |].
  rewrite filter_cons_True by done. by rewrite IH.
Qed.

Lemma created_at_selected : "created_at" ∈ task_columns.
Proof. unfold task_columns. set_solver. Qed.

Lemma employee_email_selected : "employee_email" ∈ task_columns.
Proof. unfold task_columns. set_solver. Qed.

(** C3: when the store answers, [getTasksForEmployee email] returns exactly
    the tasks whose [employee_email] is [email] (each as its selected
    columns) and no others, [getTasksForManager] returns all tasks, and both
    results are ordered by [created_at], descending. *)
Theorem getTasks_exact_and_ordered c (email : string) :
  next_reply (remote c) = Answer →
  ∃ mine all : list obj,
    (getTasksForEmployee email c).1 = Ret mine ∧
    (getTasksForManager c).1 = Ret all ∧
    mine ≡ₚ project task_columns <$>
              filter (λ t, t !! "employee_email" = Some (JStr email))
                     (table "tasks" (remote c)) ∧
    Forall (λ r, get r "employee_email" = JStr email) mine ∧
    all ≡ₚ project task_columns <$> table "tasks" (remote c) ∧
    StronglySorted (row_before "created_at" false) mine ∧
    StronglySorted (row_before "created_at" false) all.
Proof.
  intros Hans.
  rewrite getTasksForEmployee_run, getTasksForManager_run.
  rewrite !run_Answer by done.
  rewrite employee_tasks_query_eq, manager_tasks_query_eq, !serve_Select.
  cbn [fst snd rows_or_throw error data order_rows default ret].
  rewrite employee_filter, manager_filter.
  eexists _, _. split; [reflexivity |]. split; [reflexivity |].
  split; [| split; [| split; [| split]]].
  - by rewrite merge_sort_Permutation.
  - apply Forall_forall. intros r [t [-> Ht]]%list_elem_of_fmap.
    rewrite merge_sort_Permutation in Ht.
    apply list_elem_of_filter in Ht as [Hmail _].
    rewrite get_project, decide_True by apply employee_email_selected.
    unfold column. by rewrite Hmail.
  - by rewrite merge_sort_Permutation.
  - apply project_sorted, created_at_selected.
  - apply project_sorted, created_at_selected.
Qed.

(** C9: when the query succeeds without rows (the reply's data is null or
    the empty array), both task getters return the empty list. *)
Theorem getTasks_no_rows_gives_empty_list c (email : string) :
  (error (run manager_tasks_query (remote c)).1 = None →
   data (run manager_tasks_query (remote c)).1 = None ∨
   data (run manager_tasks_query (remote c)).1 = Some [] →
   (getTasksForManager c).1 = Ret []) ∧
  (error (run (employee_tasks_query email) (remote c)).1 = None →
   data (run (employee_tasks_query email) (remote c)).1 = None ∨
   data (run (employee_tasks_query email) (remote c)).1 = Some [] →
   (getTasksForEmployee email c).1 = Ret []).
Proof.
  split; intros Herr Hdata.
  - rewrite getTasksForManager_run. unfold rows_or_throw. rewrite Herr.
    by destruct Hdata as [-> | ->].
  - rewrite getTasksForEmployee_run. unfold rows_or_throw. rewrite Herr.
    by destruct Hdata as [-> | ->].
Qed.
End Listing.

(** ** Mutations of the store *)

Section Mutations.
Context {S : Type}.
Implicit Types (c : cfg S) (w : world).

Lemma table_with_table (t t' : string) (rows : list obj) w :
  table t (with_table t' rows w) = if decide (t = t') then rows else table t w.
Proof.
  unfold table, with_table. simpl. destruct (decide (t = t')) as [->|Hne].
  - by rewrite lookup_insert_eq.
  - by rewrite lookup_insert_ne.
Qed.

Lemma table_after_reply (t : string) w : table t (after_reply w) = table t w.
Proof. reflexivity. Qed.

(** A mutation reaches the store unless the round trip fails. *)
Lemma run_Update t patch fs o w :
  run (Request t (Update patch) fs o) w =
    match next_reply w with
    | Failure e => (Response None (Some e), after_reply w)
    | _ => (Response None None,
            with_table t (apply_patch (to_json patch) fs <$> table t w)
                       (after_reply w))
    end.
Proof. unfold run, remote_call. by destruct (next_reply w). Qed.

Lemma run_Delete t fs o w :
  run (Request t Delete fs o) w =
    match next_reply w with
    | Failure e => (Response None (Some e), after_reply w)
    | _ => (Response None None,
            with_table t (filter (λ x, matches fs x = false) (table t w))
                       (after_reply w))
    end.
Proof. unfold run, remote_call. by destruct (next_reply w). Qed.

Lemma run_Insert_one t (body : obj) fs o w :
  run (Request t (Insert [body]) fs o) w =
    match next_reply w with
    | Failure e => (Response None (Some e), after_reply w)
    | _ => (Response None None,
            with_fresh_id (fresh_id w + 1)
              (with_table t
                 (table t w ++
                  [to_json body ∪ object [("id", JNum (fresh_id w));
                                          ("created_at", JStr (clock w))]])
                 (after_reply w)))
    end.
Proof. unfold run, remote_call. by destruct (next_reply w). Qed.

Lemma updateTaskStatus_run (id status : jsval) c :
  updateTaskStatus id status c =
    let reply := run (Request "tasks" (Update (status_fields status (clock (remote c))))
                              [("id", id)] None) (remote c) in
    throw_on_error reply.1 (resumed c reply.2).
Proof.
  unfold updateTaskStatus, status_fields, bind, now_iso, ret.
  destruct (js_strict_eq status (JStr "done")); by rewrite await_run.
Qed.

Lemma lookup_status_body (status now col : string) :
  to_json (status_fields (JStr status) now) !! col =
    if decide (col = "status") then Some (JStr status)
    else if decide (col = "completed_at")
         then (if decide (status = "done") then Some (JStr now) else None)
         else None.
Proof.
  rewrite lookup_to_json. unfold status_fields, js_strict_eq, object.
  rewrite list_to_map_cons, list_to_map_nil.
  destruct (decide (status = "done")) as [->|Hnd].
  - rewrite bool_decide_eq_true_2 by done.
    destruct (decide (col = "status")) as [->|H1].
    + by rewrite lookup_insert_ne, lookup_insert_eq.
    + destruct (decide (col = "completed_at")) as [->|H2].
      * by rewrite lookup_insert_eq.
      * by rewrite !lookup_insert_ne, lookup_empty.
  - rewrite bool_decide_eq_false_2 by congruence.
    destruct (decide (col = "status")) as [->|H1].
    + by rewrite lookup_insert_eq.
    + rewrite lookup_insert_ne, lookup_empty by done.
      by destruct (decide (col = "completed_at")).
Qed.

(** What the status update does to one stored row. *)
Lemma status_patch_row (id : jsval) (status now : string) (r : obj) :
  let r' := apply_patch (to_json (status_fields (JStr status) now)) [("id", id)] r in
  (r !! "id" ≠ Some id → r' = r) ∧
  (∀ col, col ≠ "status" → col ≠ "completed_at" → r' !! col = r !! col) ∧
  (status ≠ "done" → r' !! "completed_at" = r !! "completed_at") ∧
  (r !! "id" = Some id → id ≠ JNull → id ≠ JUndefined →
     r' !! "status" = Some (JStr status) ∧
     (status = "done" → r' !! "completed_at" = Some (JStr now))).
Proof.
  cbv zeta. unfold apply_patch.
  destruct (matches [("id", id)] r) eqn:Hm.
  - apply matches_single in Hm as (_ & _ & Hid).
    split; [by intros [] |]. split; [| split; [| intros _ _ _; split]].
    + intros col H1 H2. rewrite lookup_union_r; [done |].
      rewrite lookup_status_body. by rewrite !decide_False.
    + intros Hnd. rewrite lookup_union_r; [done |].
      rewrite lookup_status_body.
      rewrite decide_False, decide_True by done. by rewrite decide_False.
    + apply lookup_union_Some_l. rewrite lookup_status_body.
      by rewrite decide_True.
    + intros ->. apply lookup_union_Some_l. rewrite lookup_status_body.
      rewrite decide_False by done. by rewrite !decide_True.
  - split; [done |]. split; [done |]. split; [done |].
    intros Hid Hn1 Hn2. exfalso.
    assert (matches [("id", id)] r = true) by by apply matches_single.
    congruence.
Qed.

End Mutations.

(** ** Creating and updating tasks *)

Section SavingTasks.
Context {S : Type}.
Implicit Types (c : cfg S) (w : world).

Lemma createTask_run (task : obj) c :
  createTask task c =
    let reply := run (Request "tasks" (Insert [task_record task]) [] None)
                     (remote c) in
    throw_on_error reply.1 (resumed c reply.2).
Proof. unfold createTask, bind. by rewrite await_run. Qed.

Lemma updateTask_run (task : obj) c :
  updateTask task c =
    let reply := run (Request "tasks" (Update (task_record task))
                              [("id", get task "id")] None) (remote c) in
    throw_on_error reply.1 (resumed c reply.2).
Proof. unfold updateTask, bind. by rewrite await_run. Qed.

Lemma js_or_null_normalizes (task : obj) :
  date_input (get task "due_date") →
  js_or (get task "due_date") JNull = normalized_due_date task.
Proof.
  unfold normalized_due_date, absent_or_empty, js_or.
  destruct (get task "due_date") as [| |b|n|s]; try done; intros _.
  cbn [truthy]. destruct (String.eqb_spec s "") as [->|Hs]; cbn [negb].
  - by rewrite decide_True by (by right).
  - rewrite decide_False; [done |]. intros [|]; congruence.
Qed.

Lemma js_or_null_defined (v : jsval) : js_or v JNull ≠ JUndefined.
Proof. unfold js_or. by destruct v as [| |[]|n|s]; simpl; try destruct (negb _). Qed.

Lemma lookup_task_record (task : obj) (col : string) :
  task_record task !! col =
    if decide (col = "due_date") then Some (js_or (get task "due_date") JNull)
    else if decide (col ∈ copied_fields) then Some (get task col)
         else None.
Proof.
  unfold task_record, object, copied_fields.
  rewrite !list_to_map_cons, list_to_map_nil.
  destruct (decide (col = "title")) as [->|H1];
    [by rewrite lookup_insert_eq | rewrite lookup_insert_ne by done].
  destruct (decide (col = "description")) as [->|H2];
    [by rewrite lookup_insert_eq | rewrite lookup_insert_ne by done].
  destruct (decide (col = "status")) as [->|H3];
    [by rewrite lookup_insert_eq | rewrite lookup_insert_ne by done].
  destruct (decide (col = "due_date")) as [->|H4];
    [by rewrite lookup_insert_eq | rewrite lookup_insert_ne by done].
  destruct (decide (col = "employee_email")) as [->|H5];
    [by rewrite lookup_insert_eq | rewrite lookup_insert_ne by done].
  rewrite lookup_empty, decide_False; [done |].
  rewrite !elem_of_cons, elem_of_nil. tauto.
Qed.

(** The request body: the due date is always part of it, a copied field
    when the form supplies one, and nothing else. *)
Lemma lookup_task_body (task : obj) (col : string) :
  to_json (task_record task) !! col =
    if decide (col = "due_date") then Some (js_or (get task "due_date") JNull)
    else if decide (col ∈ copied_fields)
         then (if decide (get task col = JUndefined) then None
               else Some (get task col))
         else None.
Proof.
  rewrite lookup_to_json, lookup_task_record.
  destruct (decide (col = "due_date")).
  - pose proof (js_or_null_defined (get task "due_date")).
    by destruct (js_or _ _).
  - destruct (decide (col ∈ copied_fields)); [| done].
    destruct (decide (get task col = JUndefined)) as [->|Hd]; [done |].
    by destruct (get task col).
Qed.
Lemma due_date_not_copied : "due_date" ∉ copied_fields.
Proof.
  unfold copied_fields. rewrite !elem_of_cons, elem_of_nil.
  by intros [|[|[|[|]]]].
Qed.

Lemma table_with_fresh_id (t : string) (n : Z) w :
  table t (with_fresh_id n w) = table t w.
Proof. reflexivity. Qed.

(** What the full update does to one stored row. *)
Lemma task_patch_row (task r : obj) :
  let r' := apply_patch (to_json (task_record task)) [("id", get task "id")] r in
  (r !! "id" ≠ Some (get task "id") → r' = r) ∧
  (r !! "id" = Some (get task "id") →
   get task "id" ≠ JNull → get task "id" ≠ JUndefined →
     r' !! "due_date" = Some (js_or (get task "due_date") JNull) ∧
     (∀ col, col ∈ copied_fields → get task col ≠ JUndefined →
             r' !! col = Some (get task col)) ∧
     (∀ col, col ≠ "due_date" → col ∉ copied_fields → r' !! col = r !! col)).
Proof.
  cbv zeta. unfold apply_patch.
  destruct (matches [("id", get task "id")] r) eqn:Hm.
  - apply matches_single in Hm as (_ & _ & Hid).
    split; [by intros [] |]. intros _ _ _. split; [| split].
    + apply lookup_union_Some_l. rewrite lookup_task_body.
      by rewrite decide_True.
    + intros col Hcol Hdef. apply lookup_union_Some_l.
      rewrite lookup_task_body. rewrite decide_False.
      * rewrite decide_True by done. by rewrite decide_False.
      * intros ->. by apply due_date_not_copied.
    + intros col H1 H2. rewrite lookup_union_r; [done |].
      rewrite lookup_task_body. by rewrite !decide_False.
  - split; [done |]. intros Hid Hn1 Hn2. exfalso.
    assert (matches [("id", get task "id")] r = true)
      by by apply matches_single.
    congruence.
Qed.

(** C5: for a task record whose due date is absent, null or a string,
    [createTask] and [updateTask] store null as due date when the supplied
    one is absent or the empty string, and the supplied value otherwise.
    [createTask] appends one row; [updateTask] rewrites title, description,
    status, due date and assignee of the rows whose id is the task's id, and
    leaves their other columns and all other rows as they are. *)
Theorem saving_normalizes_due_date c (task : obj) :
  date_input (get task "due_date") →
  is_failure (next_reply (remote c)) = false →
  (∃ r : obj,
     table "tasks" (remote (createTask task c).2) =
       table "tasks" (remote c) ++ [r] ∧
     r !! "due_date" = Some (normalized_due_date task) ∧
     ∀ col, col ∈ copied_fields → get task col ≠ JUndefined →
            r !! col = Some (get task col)) ∧
  (length (table "tasks" (remote (updateTask task c).2)) =
     length (table "tasks" (remote c)) ∧
   ∀ (i : nat) (r : obj), table "tasks" (remote c) !! i = Some r →
     ∃ r' : obj, table "tasks" (remote (updateTask task c).2) !! i = Some r' ∧
       (r !! "id" ≠ Some (get task "id") → r' = r) ∧
       (r !! "id" = Some (get task "id") →
        get task "id" ≠ JNull → get task "id" ≠ JUndefined →
          r' !! "due_date" = Some (normalized_due_date task) ∧
          (∀ col, col ∈ copied_fields → get task col ≠ JUndefined →
                  r' !! col = Some (get task col)) ∧
          (∀ col, col ≠ "due_date" → col ∉ copied_fields →
                  r' !! col = r !! col))).
Proof.
  intros Hdate Hok. split.
  - rewrite createTask_run, run_Insert_one. cbv zeta.
    destruct (next_reply (remote c)); try done;
      cbn [fst snd throw_on_error error ret]; unfold resumed; cbn [remote].
    all: eexists; split;
      [ rewrite table_with_fresh_id, table_with_table;
        by rewrite decide_True | ].
    all: split;
      [ apply lookup_union_Some_l; rewrite lookup_task_body;
        rewrite decide_True by done; by rewrite js_or_null_normalizes
      | intros col Hcol Hdef; apply lookup_union_Some_l;
        rewrite lookup_task_body; rewrite decide_False;
        [ rewrite decide_True by done; by rewrite decide_False
        | intros ->; by apply due_date_not_copied ] ].
  - rewrite updateTask_run, run_Update. cbv zeta.
    destruct (next_reply (remote c)); try done;
      cbn [fst snd throw_on_error error ret]; unfold resumed; cbn [remote].
    all: rewrite table_with_table, decide_True by done;
      split; [by rewrite length_fmap |].
    all: intros i r Hr; rewrite list_lookup_fmap, Hr; eexists;
      (split; [reflexivity |]);
      destruct (task_patch_row task r) as (H1 & H2);
      split; [exact H1 |]; intros Hid Hn1 Hn2;
      rewrite <- js_or_null_normalizes by done; by apply H2.
Qed.
End SavingTasks.

(** ** The session and role resolver *)

Section Resolver.
Implicit Types (c : cfg App.state) (st : App.state).

Lemma fetchProfile_run (userId : string) c :
  App.fetchProfile userId c =
    let reply := run_single (profile_query userId) (remote c) in
    (Ret tt,
     Cfg (App.State (App.session (local c))
                (match error reply.1 with
                 | Some _ => None
                 | None => data reply.1
                 end)
                (App.loading (local c)) (App.error (local c)))
         reply.2 (frames c ++ [local c])).
Proof.
  unfold App.fetchProfile, bind, profile_query. rewrite await_run. cbv zeta.
  destruct (run_single _ (remote c)) as [[d [e|]] w']; reflexivity.
Qed.

Lemma render_authenticated st (s : user_session) :
  App.loading st = false → App.session st = Some s →
  App.render st = if js_strict_eq (App.profile_role (App.profile st)) (JStr "manager")
              then App.ShowManagerDashboard
              else App.ShowEmployeeDashboard (user_email s).
Proof. unfold App.render. by intros -> ->. Qed.

(** C1: for an authenticated session (the resolver past its loading state:
    a session is held and [loading] is false, which is where the dashboard
    chooser is reached) the Manager Dashboard renders exactly when the
    resolved profile has role 'manager'; with any other role, with a null
    profile, and after a failed profile fetch, the Employee Dashboard
    renders. *)
Theorem dashboard_follows_role st (s : user_session) :
  App.loading st = false →
  App.session st = Some s →
  (App.render st = App.ShowManagerDashboard ↔
     App.profile_role (App.profile st) = JStr "manager") ∧
  (App.profile_role (App.profile st) ≠ JStr "manager" →
     App.render st = App.ShowEmployeeDashboard (user_email s)) ∧
  (App.profile st = None → App.render st = App.ShowEmployeeDashboard (user_email s)) ∧
  (∀ c (userId : string),
     local c = st →
     is_Some (error (run_single (profile_query userId) (remote c)).1) →
     App.profile (local (App.fetchProfile userId c).2) = None ∧
     App.render (local (App.fetchProfile userId c).2) =
       App.ShowEmployeeDashboard (user_email s)).
Proof.
  intros Hl Hs. pose proof (render_authenticated st s Hl Hs) as Hr.
  unfold js_strict_eq in Hr.
  split; [| split; [| split]].
  - rewrite Hr. case_bool_decide; split; done.
  - intros Hne. rewrite Hr. by rewrite bool_decide_eq_false_2.
  - intros Hp. rewrite Hr, Hp. reflexivity.
  - intros c userId <- [e He]. rewrite fetchProfile_run. cbv zeta.
    cbn [local snd]. rewrite He. split; [done |].
    unfold App.render. cbn [App.loading App.session App.profile]. by rewrite Hl, Hs.
Qed.

Lemma handleLogout_run c :
  App.handleLogout c =
    (Ret tt,
     Cfg (App.State None None (App.loading (local c)) (App.error (local c)))
         (auth_signOut (remote c)).2 (frames c ++ [local c])).
Proof.
  unfold App.handleLogout, bind. rewrite await_run. reflexivity.
Qed.

(** C10: [handleLogout] always completes with session and profile both
    null, whatever the sign-out call reports; as the Logout button is only
    on screen when [loading] is false, the login form renders next. *)
Theorem handleLogout_resets c :
  (App.handleLogout c).1 = Ret tt ∧
  App.session (local (App.handleLogout c).2) = None ∧
  App.profile (local (App.handleLogout c).2) = None ∧
  (∀ e, next_reply (remote c) = Failure e →
        error (auth_signOut (remote c)).1 = Some e ∧
        App.session (local (App.handleLogout c).2) = None ∧
        App.profile (local (App.handleLogout c).2) = None) ∧
  (App.loading (local c) = false →
   App.render (local (App.handleLogout c).2) = App.ShowLoginForm (App.error (local c))).
Proof.
  rewrite handleLogout_run. cbn [fst snd local App.session App.profile].
  split; [done |]. split; [done |]. split; [done |]. split.
  - intros e He. unfold auth_signOut, auth_call. by rewrite He.
  - intros Hl. unfold App.render. cbn [App.loading App.session App.error]. by rewrite Hl.
Qed.

Lemma handleLogin_rejected (email password : string) c (e : remote_error) :
  error (auth_signInWithPassword email password (remote c)).1 = Some e →
  App.handleLogin email password c =
    (Ret tt,
     Cfg (App.State (App.session (local c)) (App.profile (local c)) (App.loading (local c))
                (message e))
         (auth_signInWithPassword email password (remote c)).2
         (frames c ++ [App.State (App.session (local c)) (App.profile (local c))
                             (App.loading (local c)) ""])).
Proof.
  intros He. unfold App.handleLogin, bind, App.setError, set_state.
  rewrite await_run. cbn [local remote frames fst snd].
  destruct (auth_signInWithPassword email password (remote c)) as [[d err] w'].
  cbn [error fst snd] in *. by subst err.
Qed.

(** C8: when the auth service rejects a sign-in attempt made from the
    login form, the session stays null, the service's message becomes the
    error of the login form and is displayed there, and no dashboard
    renders. *)
Theorem rejected_login_shows_error c (email password : string)
    (e : remote_error) :
  App.session (local c) = None →
  App.loading (local c) = false →
  error (auth_signInWithPassword email password (remote c)).1 = Some e →
  message e ≠ "" →
  App.session (local (App.handleLogin email password c).2) = None ∧
  App.error (local (App.handleLogin email password c).2) = message e ∧
  App.render (local (App.handleLogin email password c).2) = App.ShowLoginForm (message e) ∧
  App.error_text (message e) = Some (message e) ∧
  App.shows_dashboard (App.render (local (App.handleLogin email password c).2)) = false.
Proof.
  intros Hs Hl He Hm. rewrite (handleLogin_rejected _ _ _ e He).
  cbn [snd local App.session App.error]. unfold App.render.
  cbn [App.loading App.session App.error]. rewrite Hs, Hl.
  repeat split; try done.
  unfold App.error_text, truthy.
  destruct (String.eqb_spec (message e) ""); [done | reflexivity].
Qed.
End Resolver.

(** ** The manager dashboard: failed operations *)

Section ManagerFailures.
Implicit Types (c : cfg ManagerDashboard.state) (st : ManagerDashboard.state).

Ltac run_failed He :=
  unfold bind, ret, try_catch, finally, set_state, throw;
  repeat (rewrite await_run; cbn [local remote frames fst snd]);
  rewrite ?(run_Failure _ _ _ He);
  cbn [fst snd error data local remote frames throw_on_error rows_or_throw throw].

Lemma loadEmployees_failed c (e : remote_error) :
  next_reply (remote c) = Failure e →
  employees_failed "Could not load employees" (local c)
                   (local (ManagerDashboard.loadEmployees c).2) ∧
  ManagerDashboard.loading (local (ManagerDashboard.loadEmployees c).2) = false.
Proof.
  intros He.
  unfold ManagerDashboard.loadEmployees, ManagerDashboard.setLoading,
    ManagerDashboard.setError, ManagerDashboard.setEmployees.
  run_failed He.
  by repeat split.
Qed.
Lemma loadTasks_failed c (e : remote_error) :
  next_reply (remote c) = Failure e →
  tasks_failed "Could not load tasks" (local c)
               (local (ManagerDashboard.loadTasks c).2) ∧
  ManagerDashboard.tasksLoading (local (ManagerDashboard.loadTasks c).2) = false.
Proof.
  intros He.
  unfold ManagerDashboard.loadTasks, ManagerDashboard.setTasksLoading,
    ManagerDashboard.setTasksError, ManagerDashboard.setTasks,
    getTasksForManager.
  run_failed He.
  by repeat split.
Qed.

Lemma saveTask_failed c (e : remote_error) (taskValues : obj) :
  next_reply (remote c) = Failure e →
  tasks_failed "Could not save task" (local c)
               (local (ManagerDashboard.saveTask taskValues c).2) ∧
  ManagerDashboard.tasksLoading (local (ManagerDashboard.saveTask taskValues c).2) =
    ManagerDashboard.tasksLoading (local c).
Proof.
  intros He.
  unfold ManagerDashboard.saveTask, ManagerDashboard.setTasksError,
    ManagerDashboard.setEditingTask, updateTask, createTask.
  destruct (truthy (get taskValues "id")); run_failed He; by repeat split.
Qed.

Lemma handleDeleteTask_failed c (e : remote_error) (id : jsval) :
  next_reply (remote c) = Failure e →
  tasks_failed "Could not delete task" (local c)
               (local (ManagerDashboard.handleDeleteTask true id c).2) ∧
  ManagerDashboard.tasksLoading
    (local (ManagerDashboard.handleDeleteTask true id c).2) =
    ManagerDashboard.tasksLoading (local c).
Proof.
  intros He.
  unfold ManagerDashboard.handleDeleteTask, ManagerDashboard.setTasksError,
    deleteTask.
  cbn [negb]. run_failed He. by repeat split.
Qed.

Lemma saveEmployee_failed c (e : remote_error) (formValues : obj) :
  next_reply (remote c) = Failure e →
  employees_failed
    (if truthy (get formValues "id") then "Could not update employee"
     else "Could not create employee")
    (local c) (local (ManagerDashboard.saveEmployee formValues c).2) ∧
  ManagerDashboard.loading (local (ManagerDashboard.saveEmployee formValues c).2) =
    ManagerDashboard.loading (local c).
Proof.
  intros He.
  unfold ManagerDashboard.saveEmployee, ManagerDashboard.setError,
    ManagerDashboard.setEditingEmployee.
  destruct (truthy (get formValues "id")); run_failed He; by repeat split.
Qed.

(** C6: when the remote call of a Manager Dashboard operation fails, the
    operation sets the error message of its own section only; the list it
    works on and the form of its section stay as they were, and the other
    section's list, error, form and loading flag are untouched.  This holds
    for both list loads ([loadEmployees], [loadTasks], which end with their
    own loading flag off) and for the mutations ([saveTask], a confirmed
    [handleDeleteTask], [saveEmployee], which keep it); a failed mutation
    also leaves every table of the store as it was. *)
Theorem failed_operation_is_section_scoped c (e : remote_error) :
  next_reply (remote c) = Failure e →
  (employees_failed "Could not load employees" (local c)
     (local (ManagerDashboard.loadEmployees c).2) ∧
   ManagerDashboard.loading (local (ManagerDashboard.loadEmployees c).2) = false) ∧
  (tasks_failed "Could not load tasks" (local c)
     (local (ManagerDashboard.loadTasks c).2) ∧
   ManagerDashboard.tasksLoading (local (ManagerDashboard.loadTasks c).2) = false) ∧
  (∀ taskValues : obj,
     tasks_failed "Could not save task" (local c)
       (local (ManagerDashboard.saveTask taskValues c).2) ∧
     ManagerDashboard.tasksLoading (local (ManagerDashboard.saveTask taskValues c).2) =
       ManagerDashboard.tasksLoading (local c) ∧
     ∀ t, table t (remote (ManagerDashboard.saveTask taskValues c).2) =
          table t (remote c)) ∧
  (∀ id : jsval,
     tasks_failed "Could not delete task" (local c)
       (local (ManagerDashboard.handleDeleteTask true id c).2) ∧
     ManagerDashboard.tasksLoading
       (local (ManagerDashboard.handleDeleteTask true id c).2) =
       ManagerDashboard.tasksLoading (local c) ∧
     ∀ t, table t (remote (ManagerDashboard.handleDeleteTask true id c).2) =
          table t (remote c)) ∧
  (∀ formValues : obj,
     employees_failed
       (if truthy (get formValues "id") then "Could not update employee"
        else "Could not create employee")
       (local c) (local (ManagerDashboard.saveEmployee formValues c).2) ∧
     ManagerDashboard.loading (local (ManagerDashboard.saveEmployee formValues c).2) =
       ManagerDashboard.loading (local c) ∧
     ∀ t, table t (remote (ManagerDashboard.saveEmployee formValues c).2) =
          table t (remote c)).
Proof.
  intros He.
  split; [apply (loadEmployees_failed c e He) |].
  split; [apply (loadTasks_failed c e He) |].
  split; [| split].
  - intros taskValues.
    destruct (saveTask_failed c e taskValues He) as [Hlocal Hflag].
    split; [exact Hlocal |]. split; [exact Hflag |].
    unfold ManagerDashboard.saveTask, ManagerDashboard.setTasksError,
      ManagerDashboard.setEditingTask, updateTask, createTask.
    destruct (truthy (get taskValues "id")); run_failed He; done.
  - intros id.
    destruct (handleDeleteTask_failed c e id He) as [Hlocal Hflag].
    split; [exact Hlocal |]. split; [exact Hflag |].
    unfold ManagerDashboard.handleDeleteTask, ManagerDashboard.setTasksError,
      deleteTask.
    cbn [negb]. run_failed He. done.
  - intros formValues.
    destruct (saveEmployee_failed c e formValues He) as [Hlocal Hflag].
    split; [exact Hlocal |]. split; [exact Hflag |].
    unfold ManagerDashboard.saveEmployee, ManagerDashboard.setError,
      ManagerDashboard.setEditingEmployee.
    destruct (truthy (get formValues "id")); run_failed He; done.
Qed.
End ManagerFailures.

(** ** The employee dashboard: looking up one's own record *)

Section EmployeeLookup.
Implicit Types (c : cfg EmployeeDashboard.state) (w : world).

Lemma employee_query_eq (userEmail : string) :
  EmployeeDashboard.employee_query userEmail =
    Request "employees" (Select profile_columns) [("email", JStr userEmail)] None.
Proof. reflexivity. Qed.

Lemma serve_employee_query (userEmail : string) w :
  serve (EmployeeDashboard.employee_query userEmail) w =
    (Response (Some (project profile_columns <$> matching_employees userEmail w))
              None, w).
Proof.
  rewrite employee_query_eq, serve_Select. cbn [order_rows].
  unfold matching_employees. do 4 f_equal.
  apply list_filter_iff. intros x. rewrite matches_single.
  split; [by intros (_ & _ & ?) | by intros ?].
Qed.

Lemma single_row_error (rows : list obj) :
  length rows ≠ 1%nat → is_Some (error (single_row (Response (Some rows) None))).
Proof.
  destruct rows as [|x [|y rows]]; simpl; intros Hlen; by eauto.
Qed.

(** Zero or several matching rows make the lookup fail, whatever the
    round trip does. *)
Lemma lookup_fails (userEmail : string) w :
  length (matching_employees userEmail w) ≠ 1%nat →
  is_Some (error (run_single (EmployeeDashboard.employee_query userEmail) w).1).
Proof.
  intros Hlen. unfold run_single, remote_call.
  assert (is_Some (error (single_row
            (Response (Some (project profile_columns <$>
                               matching_employees userEmail w)) None)))) as Herr.
  { apply single_row_error. by rewrite length_fmap. }
  destruct (next_reply w); rewrite ?serve_employee_query; cbn [fst error];
    [exact Herr | exact Herr | by eauto].
Qed.

Lemma lookup_succeeds (userEmail : string) w (r : obj) :
  matching_employees userEmail w = [r] →
  next_reply w = Answer →
  (run_single (EmployeeDashboard.employee_query userEmail) w).1 =
    Response (Some (project profile_columns r)) None.
Proof.
  intros Hone Hans. unfold run_single, remote_call.
  rewrite Hans, serve_employee_query. cbn [fst].
  change (matching_employees userEmail (after_reply w))
    with (matching_employees userEmail w).
  by rewrite Hone.
Qed.

Lemma loadEmployee_run (userEmail : string) c :
  local (EmployeeDashboard.loadEmployee userEmail c).2 =
    let reply := (run_single (EmployeeDashboard.employee_query userEmail)
                             (remote c)).1 in
    EmployeeDashboard.State
      (match error reply with
       | Some _ => EmployeeDashboard.employee (local c)
       | None => data reply
       end)
      false
      (match error reply with
       | Some _ => "Could not load your employee record"
       | None => ""
       end)
      (EmployeeDashboard.tasks (local c))
      (EmployeeDashboard.tasksLoading (local c))
      (EmployeeDashboard.tasksError (local c)).
Proof.
  unfold EmployeeDashboard.loadEmployee, EmployeeDashboard.setLoading,
    EmployeeDashboard.setError, EmployeeDashboard.setEmployee,
    bind, set_state.
  rewrite await_run. cbn [local remote frames fst snd]. cbv zeta.
  destruct (run_single _ (remote c)) as [[d [e|]] w']; reflexivity.
Qed.

(** X20: the self-lookup of a freshly mounted Employee Dashboard (no
    employee held yet) asks for the one employee record whose email is the
    caller's session email.  With zero or several matching rows the lookup
    fails: the inline error is shown and no profile is displayed.  With
    exactly one matching row (and an answered request) that record is
    displayed and no error. *)
Theorem employee_lookup c (userEmail : string) :
  EmployeeDashboard.employee (local c) = None →
  (length (matching_employees userEmail (remote c)) ≠ 1%nat →
   is_Some (error (run_single (EmployeeDashboard.employee_query userEmail)
                              (remote c)).1) ∧
   EmployeeDashboard.render (local (EmployeeDashboard.loadEmployee userEmail c).2) =
     EmployeeDashboard.View false (Some "Could not load your employee record") None) ∧
  (∀ r : obj,
     matching_employees userEmail (remote c) = [r] →
     next_reply (remote c) = Answer →
     get (project profile_columns r) "email" = JStr userEmail ∧
     EmployeeDashboard.render (local (EmployeeDashboard.loadEmployee userEmail c).2) =
       EmployeeDashboard.View false None (Some (project profile_columns r))).
Proof.
  intros Hnone. split.
  - intros Hlen. pose proof (lookup_fails userEmail (remote c) Hlen) as Herr.
    split; [exact Herr |].
    rewrite loadEmployee_run. cbv zeta. destruct Herr as [e ->].
    unfold EmployeeDashboard.render.
    cbn [EmployeeDashboard.loading EmployeeDashboard.error
         EmployeeDashboard.employee].
    by rewrite Hnone.
  - intros r Hone Hans. split.
    + assert (r ∈ matching_employees userEmail (remote c)) as Hin
        by (rewrite Hone; left).
      apply list_elem_of_filter in Hin as [Hmail _].
      rewrite get_project, decide_True.
      * unfold column. by rewrite Hmail.
      * unfold profile_columns. set_solver.
    + rewrite loadEmployee_run, (lookup_succeeds _ _ r Hone Hans).
      reflexivity.
Qed.
(** C7, at the failing input: the dashboard is mounted for Ann and shows
    her record; the session email changes to Zoe's, for which no employee
    row matches.  The lookup fails and the inline error is shown, but the
    error branch of [loadEmployee] does not reset [employee], so Ann's
    profile card stays on display beside the error.  The sibling
    [fetchProfile] does reset: after its failed lookup the profile that was
    held is null. *)
Theorem failed_lookup_keeps_stale_profile :
  EmployeeDashboard.render (local mounted_for_ann) =
    EmployeeDashboard.View false None (Some ann_record) ∧
  length (matching_employees "zoe@example.com" (remote mounted_for_ann)) = 0%nat ∧
  is_Some (error (run_single (EmployeeDashboard.employee_query "zoe@example.com")
                             (remote mounted_for_ann)).1) ∧
  EmployeeDashboard.render (local changed_to_zoe) =
    EmployeeDashboard.View false (Some "Could not load your employee record")
                           (Some ann_record) ∧
  App.profile manager_view = Some ann_profile ∧
  App.profile (local refetched_profile) = None.
Proof.
  split; [vm_compute; reflexivity |].
  split; [vm_compute; reflexivity |].
  split; [vm_compute; by eexists |].
  split; [vm_compute; reflexivity |].
  split; vm_compute; reflexivity.
Qed.
End EmployeeLookup.

(** ** The employee dashboard: changing a task's status *)

Section StatusChange.
Implicit Types (c : cfg EmployeeDashboard.state) (w : world).

Lemma handleStatusChange_ok (userEmail : string) (id : jsval) (status : string) c :
  is_failure (next_reply (remote c)) = false →
  next_reply (after_reply (remote c)) = Answer →
  EmployeeDashboard.tasks
    (local (EmployeeDashboard.handleStatusChange userEmail id (JStr status) c).2) =
    project task_columns <$>
      merge_sort (row_before "created_at" false)
        (filter (λ t, t !! "employee_email" = Some (JStr userEmail))
                (tasks_after_update id status (remote c))) ∧
  table "tasks"
    (remote (EmployeeDashboard.handleStatusChange userEmail id (JStr status) c).2) =
    tasks_after_update id status (remote c).
Proof.
  intros Hok Hans.
  unfold EmployeeDashboard.handleStatusChange, try_catch, bind.
  rewrite updateTaskStatus_run, run_Update. cbv zeta.
  destruct (next_reply (remote c)) eqn:Hfirst; try done;
    cbn [fst snd throw_on_error error ret].
  all: rewrite getTasksForEmployee_run, run_Answer by exact Hans.
  all: rewrite employee_tasks_query_eq, serve_Select.
  all: cbn [fst snd rows_or_throw error data default ret order_rows
            EmployeeDashboard.setTasks set_state local remote resumed
            EmployeeDashboard.tasks].
  all: rewrite employee_filter.
  all: rewrite !table_after_reply, table_with_table, decide_True by done.
  all: by split.
Qed.
Lemma completed_at_not_selected : "completed_at" ∉ task_columns.
Proof.
  unfold task_columns. rewrite !elem_of_cons, elem_of_nil.
  by intros [|[|[|[|[|[|[|]]]]]]].
Qed.

Lemma id_selected : "id" ∈ task_columns.
Proof. unfold task_columns. set_solver. Qed.

Lemma status_selected : "status" ∈ task_columns.
Proof. unfold task_columns. set_solver. Qed.

Lemma listed_row (userEmail : string) (stored : list obj) (r : obj) :
  r ∈ project task_columns <$>
        merge_sort (row_before "created_at" false)
          (filter (λ t, t !! "employee_email" = Some (JStr userEmail)) stored) →
  ∃ t, t ∈ stored ∧ r = project task_columns t.
Proof.
  intros [t [-> Ht]]%list_elem_of_fmap.
  rewrite merge_sort_Permutation in Ht.
  apply list_elem_of_filter in Ht as [_ Ht]. eauto.
Qed.

(** C4, as amended: after a status change (the update, then the full
    reload, both answered) the local task list is the employee's slice of
    the store as the update left it, in the seven selected columns: every
    listed row shows the stored values of these columns, and the changed
    task shows its new status.  [completed_at] is not among the selected
    columns: no listed row carries it. *)
Theorem reload_reflects_selected_columns c (userEmail : string) (id : jsval)
    (status : string) :
  is_failure (next_reply (remote c)) = false →
  next_reply (after_reply (remote c)) = Answer →
  table "tasks"
    (remote (EmployeeDashboard.handleStatusChange userEmail id (JStr status) c).2) =
    tasks_after_update id status (remote c) ∧
  EmployeeDashboard.tasks
    (local (EmployeeDashboard.handleStatusChange userEmail id (JStr status) c).2)
    ≡ₚ project task_columns <$>
         filter (λ t, t !! "employee_email" = Some (JStr userEmail))
                (tasks_after_update id status (remote c)) ∧
  (∀ col, col ∈ task_columns →
     reflects col
       (EmployeeDashboard.tasks
          (local (EmployeeDashboard.handleStatusChange userEmail id (JStr status) c).2))
       (tasks_after_update id status (remote c))) ∧
  (id ≠ JNull → id ≠ JUndefined →
   ∀ r, r ∈ EmployeeDashboard.tasks
              (local (EmployeeDashboard.handleStatusChange userEmail id (JStr status) c).2) →
        get r "id" = id → get r "status" = JStr status) ∧
  (∀ r, r ∈ EmployeeDashboard.tasks
              (local (EmployeeDashboard.handleStatusChange userEmail id (JStr status) c).2) →
        get r "completed_at" = JUndefined).
Proof.
  intros Hok Hans.
  destruct (handleStatusChange_ok userEmail id status c Hok Hans) as [-> ->].
  split; [done |]. split; [by rewrite merge_sort_Permutation |].
  split; [| split].
  - intros col Hcol. apply Forall_forall. intros r Hr.
    apply listed_row in Hr as (t & Ht & ->).
    apply Exists_exists. exists t. split; [done |].
    by rewrite !get_project, !decide_True by (done || apply id_selected).
  - intros Hn1 Hn2 r Hr Hid.
    apply listed_row in Hr as (t' & Ht' & ->).
    unfold tasks_after_update in Ht'.
    apply list_elem_of_fmap in Ht' as (t & -> & Ht).
    destruct (status_patch_row id status (clock (remote c)) t)
      as (_ & Hkeep & _ & Hset).
    rewrite get_project, decide_True in Hid by apply id_selected.
    rewrite get_project, decide_True by apply status_selected.
    unfold column in Hid. rewrite Hkeep in Hid by done.
    assert (t !! "id" = Some id) as Htid.
    { destruct (t !! "id") as [v|]; simpl in Hid; congruence. }
    destruct (Hset Htid Hn1 Hn2) as [Hstatus _].
    unfold column. by rewrite Hstatus.
  - intros r Hr. apply listed_row in Hr as (t & _ & ->).
    rewrite get_project, decide_False; [done |].
    apply completed_at_not_selected.
Qed.
End StatusChange.

(** ** The task service: errors, deletion, repeated updates *)

Section ServiceMore.
Context {S : Type}.
Implicit Types (c : cfg S) (w : world).

Lemma deleteTask_run (id : jsval) c :
  deleteTask id c =
    let reply := run (Request "tasks" Delete [("id", id)] None) (remote c) in
    throw_on_error reply.1 (resumed c reply.2).
Proof. unfold deleteTask, bind. by rewrite await_run. Qed.

(** X1: every function of the task service passes a failed round trip on
    to its caller as the very error the service reported, and has then
    changed neither the caller's state nor any table. *)
Theorem service_errors_propagate c (e : remote_error) (email : string)
    (task : obj) (id status : jsval) :
  next_reply (remote c) = Failure e →
  propagates e c (getTasksForManager c) ∧
  propagates e c (getTasksForEmployee email c) ∧
  propagates e c (createTask task c) ∧
  propagates e c (updateTask task c) ∧
  propagates e c (updateTaskStatus id status c) ∧
  propagates e c (deleteTask id c).
Proof.
  intros He. unfold propagates.
  rewrite getTasksForManager_run, getTasksForEmployee_run, createTask_run,
    updateTask_run, updateTaskStatus_run, deleteTask_run.
  cbv zeta. rewrite !(run_Failure _ _ e He).
  cbn [fst snd rows_or_throw throw_on_error error throw].
  by repeat split.
Qed.

Lemma delete_filter (id : jsval) (rows : list obj) :
  id ≠ JNull → id ≠ JUndefined →
  filter (λ x, matches [("id", id)] x = false) rows =
  filter (λ t, t !! "id" ≠ Some id) rows.
Proof.
  intros Hn1 Hn2. apply list_filter_iff. intros x.
  rewrite <- not_true_iff_false, matches_single. tauto.
Qed.

Lemma delete_nothing (id : jsval) (rows : list obj) :
  id = JNull ∨ id = JUndefined →
  filter (λ x, matches [("id", id)] x = false) rows = rows.
Proof.
  intros Hid. induction rows as [|r rows IH]; [done |].
  rewrite filter_cons_True, IH; [done |].
  apply not_true_iff_false. rewrite matches_single. tauto.
Qed.

(** X2: a successful [deleteTask id] removes exactly the task rows whose id
    is [id] and keeps the others in their order (with a null or undefined id
    it removes nothing); a manager listing made afterwards shows the
    remaining tasks and no row with that id. *)
Theorem deleteTask_removes_the_task c (id : jsval) :
  is_failure (next_reply (remote c)) = false →
  (deleteTask id c).1 = Ret tt ∧
  local (deleteTask id c).2 = local c ∧
  (id = JNull ∨ id = JUndefined →
   table "tasks" (remote (deleteTask id c).2) = table "tasks" (remote c)) ∧
  (id ≠ JNull → id ≠ JUndefined →
   table "tasks" (remote (deleteTask id c).2) =
     filter (λ t, t !! "id" ≠ Some id) (table "tasks" (remote c)) ∧
   (next_reply (after_reply (remote c)) = Answer →
    ∃ all : list obj,
      (getTasksForManager (deleteTask id c).2).1 = Ret all ∧
      all ≡ₚ project task_columns <$>
               filter (λ t, t !! "id" ≠ Some id) (table "tasks" (remote c)) ∧
      Forall (λ r, get r "id" ≠ id) all)).
Proof.
  intros Hok. rewrite deleteTask_run, run_Delete. cbv zeta.
  destruct (next_reply (remote c)) eqn:Hfirst; try done;
    cbn [fst snd throw_on_error error ret]; unfold resumed; cbn [local remote].
  all: split; [done |]; split; [done |].
  all: rewrite table_with_table, decide_True by done.
  all: split; [intros Hid; by rewrite delete_nothing |].
  all: intros Hn1 Hn2; rewrite delete_filter by done; split; [done |].
  all: intros Hans; rewrite getTasksForManager_run; cbn [remote].
  all: rewrite run_Answer by exact Hans.
  all: rewrite manager_tasks_query_eq, serve_Select.
  all: cbn [fst snd rows_or_throw error data default ret order_rows].
  all: rewrite manager_filter, table_after_reply, table_with_table,
         decide_True by done.
  all: eexists; split; [reflexivity |]; split;
         [by rewrite merge_sort_Permutation |].
  all: apply Forall_forall; intros r [t [-> Ht]]%list_elem_of_fmap.
  all: rewrite merge_sort_Permutation in Ht.
  all: apply list_elem_of_filter in Ht as [Hne _].
  all: rewrite get_project, decide_True by apply id_selected.
  all: unfold column; destruct (t !! "id") as [v|]; simpl; congruence.
Qed.
End ServiceMore.

Section ServiceCompose.
Context {S : Type}.
Implicit Types (c : cfg S) (w : world).

Lemma patch_keeps_id (body : obj) (fs : list (string * jsval)) (r : obj) :
  body !! "id" = None → apply_patch body fs r !! "id" = r !! "id".
Proof.
  intros Hbody. unfold apply_patch. destruct (matches fs r); [| done].
  by rewrite lookup_union_r.
Qed.

Lemma patch_idempotent (body : obj) (id : jsval) (r : obj) :
  body !! "id" = None →
  apply_patch body [("id", id)] (apply_patch body [("id", id)] r) =
  apply_patch body [("id", id)] r.
Proof.
  intros Hbody. unfold apply_patch.
  destruct (matches [("id", id)] r) eqn:Hm; [| by rewrite Hm].
  assert (matches [("id", id)] (body ∪ r) = true) as ->.
  { apply matches_single in Hm as (? & ? & ?). apply matches_single.
    by rewrite lookup_union_r. }
  by rewrite (assoc_L (∪)), (idemp_L (∪)).
Qed.

Lemma task_body_has_no_id (task : obj) : to_json (task_record task) !! "id" = None.
Proof.
  rewrite lookup_task_body, decide_False by done.
  rewrite decide_False; [done |].
  unfold copied_fields. rewrite !elem_of_cons, elem_of_nil.
  by intros [|[|[|[|]]]].
Qed.

Lemma updateTask_table (task : obj) c :
  is_failure (next_reply (remote c)) = false →
  table "tasks" (remote (updateTask task c).2) =
    apply_patch (to_json (task_record task)) [("id", get task "id")]
      <$> table "tasks" (remote c) ∧
  next_reply (remote (updateTask task c).2) = next_reply (after_reply (remote c)).
Proof.
  intros Hok. rewrite updateTask_run, run_Update. cbv zeta.
  destruct (next_reply (remote c)); try done;
    cbn [fst snd throw_on_error error ret]; unfold resumed; cbn [remote];
    by rewrite table_with_table, decide_True.
Qed.

(** X3: [updateTask] never changes the number, the order or the ids of the
    task rows, and it is idempotent: sending the same task a second time
    leaves the table as the first update left it. *)
Theorem updateTask_is_idempotent c (task : obj) :
  is_failure (next_reply (remote c)) = false →
  is_failure (next_reply (after_reply (remote c))) = false →
  row_ids (table "tasks" (remote (updateTask task c).2)) =
    row_ids (table "tasks" (remote c)) ∧
  table "tasks" (remote (updateTask task (updateTask task c).2).2) =
    table "tasks" (remote (updateTask task c).2).
Proof.
  intros Hone Htwo.
  destruct (updateTask_table task c Hone) as [Hfirst Hnext].
  destruct (updateTask_table task (updateTask task c).2) as [Hsecond _];
    [by rewrite Hnext |].
  split.
  - rewrite Hfirst. unfold row_ids. rewrite <- list_fmap_compose.
    apply list_fmap_ext. intros i r _. simpl.
    apply patch_keeps_id, task_body_has_no_id.
  - rewrite Hsecond, Hfirst, <- list_fmap_compose.
    apply list_fmap_ext. intros i r _. simpl.
    apply patch_idempotent, task_body_has_no_id.
Qed.

Lemma filter_project (P : obj → Prop) `{!∀ r, Decision (P r)}
    (Q : obj → Prop) `{!∀ t, Decision (Q t)} (cs : list string) (rows : list obj) :
  (∀ t, P (project cs t) ↔ Q t) →
  filter P (project cs <$> rows) = project cs <$> filter Q rows.
Proof.
  intros Hiff. induction rows as [|t rows IH]; [done |].
  rewrite fmap_cons. destruct (decide (Q t)) as [Hq|Hq].
  - rewrite !filter_cons_True by (done || by apply Hiff).
    by rewrite fmap_cons, IH.
  - rewrite !filter_cons_False by (done || by rewrite Hiff). done.
Qed.

(** X4: on one store, the list an employee gets is the manager's list cut
    down to the rows assigned to that employee: nothing else is added,
    dropped or altered. *)
Theorem employee_list_is_slice_of_manager_list c (email : string) :
  next_reply (remote c) = Answer →
  ∃ mine all : list obj,
    (getTasksForEmployee email c).1 = Ret mine ∧
    (getTasksForManager c).1 = Ret all ∧
    mine ≡ₚ filter (λ r, get r "employee_email" = JStr email) all.
Proof.
  intros Hans.
  rewrite getTasksForEmployee_run, getTasksForManager_run.
  rewrite !run_Answer by done.
  rewrite employee_tasks_query_eq, manager_tasks_query_eq, !serve_Select.
  cbn [fst snd rows_or_throw error data order_rows default ret].
  rewrite employee_filter, manager_filter.
  eexists _, _. split; [reflexivity |]. split; [reflexivity |].
  unfold id.
  rewrite (filter_project _ (λ t, t !! "employee_email" = Some (JStr email))).
  - by rewrite !merge_sort_Permutation.
  - intros t. rewrite get_project, decide_True by apply employee_email_selected.
    unfold column. destruct (t !! "employee_email") as [v|]; simpl;
      split; congruence.
Qed.
End ServiceCompose.

(** ** The session resolver: initial load, auth events, sign-in *)

Section ResolverMore.
Implicit Types (c : cfg App.state) (st : App.state).

Lemma loadInitialSession_run c :
  App.loadInitialSession c =
    let reply := auth_getSession (remote c) in
    let current := default None (data reply.1) in
    let c1 := Cfg (App.State current (App.profile (local c)) (App.loading (local c))
                             (App.error (local c)))
                  reply.2 (frames c ++ [local c]) in
    match current with
    | Some s =>
        (Ret tt,
         Cfg (App.State current (resolved_profile (user_id s) reply.2) false
                        (App.error (local c)))
             (run_single (profile_query (user_id s)) reply.2).2
             (frames c1 ++ [local c1]))
    | None =>
        (Ret tt,
         Cfg (App.State None (App.profile (local c)) false (App.error (local c)))
             reply.2 (frames c1))
    end.
Proof.
  unfold App.loadInitialSession, bind. rewrite await_run. cbv zeta.
  destruct (auth_getSession (remote c)) as [[d err] w'].
  cbn [fst snd data]. destruct (default None d) as [s|] eqn:Hs.
  - unfold App.setSession, App.setLoading, set_state.
    cbn [local remote frames]. rewrite fetchProfile_run. cbv zeta.
    cbn [local remote frames App.session App.profile App.loading App.error fst snd].
    reflexivity.
  - reflexivity.
Qed.

Lemma getSession_reply w :
  data (auth_getSession w).1 =
    Some (if is_failure (next_reply w) then None else stored_session w).
Proof.
  unfold auth_getSession, auth_call. by destruct (next_reply w).
Qed.

(** X5: the initial load always completes and switches [loading] off,
    whatever the service replies, and keeps the error text.  Its session is
    the one the client library holds (none when the session lookup fails);
    afterwards the login form is on screen when there is no session and a
    dashboard when there is one. *)
Theorem loadInitialSession_settles c :
  (App.loadInitialSession c).1 = Ret tt ∧
  App.loading (local (App.loadInitialSession c).2) = false ∧
  App.error (local (App.loadInitialSession c).2) = App.error (local c) ∧
  App.session (local (App.loadInitialSession c).2) =
    (if is_failure (next_reply (remote c)) then None
     else stored_session (remote c)) ∧
  (App.session (local (App.loadInitialSession c).2) = None →
   App.render (local (App.loadInitialSession c).2) =
     App.ShowLoginForm (App.error (local c))) ∧
  (is_Some (App.session (local (App.loadInitialSession c).2)) →
   App.shows_dashboard (App.render (local (App.loadInitialSession c).2)) = true).
Proof.
  rewrite loadInitialSession_run. cbv zeta. rewrite getSession_reply.
  cbn [default from_option id].
  destruct (if is_failure (next_reply (remote c)) then None
            else stored_session (remote c)) as [s|];
    cbn [fst snd local App.loading App.error App.session].
  - repeat split; try done. intros _. unfold App.render.
    cbn [App.loading App.session]. by destruct (js_strict_eq _ _).
  - repeat split; try done; by intros [? ?].
Qed.

(** X6: the auth listener re-resolves from scratch.  A sign-out event
    clears session and profile without any request; a session event sets
    the new session and replaces the profile by what the profile lookup for
    the new user returns, whatever profile was held before.  Neither touches
    [loading] or the error text. *)
Theorem onAuthStateChange_resolves_afresh c :
  App.onAuthStateChange None c =
    (Ret tt,
     Cfg (App.State None None (App.loading (local c)) (App.error (local c)))
         (remote c) (frames c)) ∧
  (∀ s : user_session,
     (App.onAuthStateChange (Some s) c).1 = Ret tt ∧
     local (App.onAuthStateChange (Some s) c).2 =
       App.State (Some s) (resolved_profile (user_id s) (remote c))
                 (App.loading (local c)) (App.error (local c))).
Proof.
  split; [reflexivity |].
  intros s. unfold App.onAuthStateChange, bind, App.setSession, set_state.
  rewrite fetchProfile_run. by split.
Qed.

(** Looking up a single row changes nothing in the world but the script. *)
Lemma lookup_leaves_world t cols fs o w :
  (run_single (Request t (Select cols) fs o) w).2 = after_reply w.
Proof.
  unfold run_single, remote_call. rewrite serve_Select.
  by destruct (next_reply w).
Qed.

Lemma profile_query_eq (userId : string) :
  profile_query userId =
    Request "profiles" (Select ["id"; "full_name"; "role"]) [("id", JStr userId)] None.
Proof. reflexivity. Qed.

Lemma signIn_accepted (email password : string) w (a : account) :
  find_account email password w = Some a →
  is_failure (next_reply w) = false →
  auth_signInWithPassword email password w =
    (Response (Some (Some (acc_session a))) None,
     with_stored_session (Some (acc_session a)) (after_reply w)).
Proof.
  intros Hfind Hok. unfold auth_signInWithPassword, auth_call.
  change (find_account email password (after_reply w))
    with (find_account email password w).
  rewrite Hfind. by destruct (next_reply w).
Qed.

(** X7: a sign-in with the credentials of an account, once the request
    gets through, makes that account's session the local session and the
    one the client holds, clears the error text, resolves the profile of
    that user and leaves [loading] alone; from the login form this puts a
    dashboard on screen, the manager's exactly when the resolved profile
    has role 'manager'. *)
Theorem accepted_login_opens_dashboard c (email password : string) (a : account) :
  find_account email password (remote c) = Some a →
  is_failure (next_reply (remote c)) = false →
  (App.handleLogin email password c).1 = Ret tt ∧
  local (App.handleLogin email password c).2 =
    App.State (Some (acc_session a))
      (resolved_profile (user_id (acc_session a))
         (with_stored_session (Some (acc_session a)) (after_reply (remote c))))
      (App.loading (local c)) "" ∧
  stored_session (remote (App.handleLogin email password c).2) =
    Some (acc_session a) ∧
  (App.loading (local c) = false →
   App.render (local (App.handleLogin email password c).2) =
     (if js_strict_eq
           (App.profile_role (App.profile (local (App.handleLogin email password c).2)))
           (JStr "manager")
      then App.ShowManagerDashboard
      else App.ShowEmployeeDashboard (user_email (acc_session a)))).
Proof.
  intros Hfind Hok.
  assert (App.handleLogin email password c =
    (Ret tt,
     Cfg (App.State (Some (acc_session a))
            (resolved_profile (user_id (acc_session a))
               (with_stored_session (Some (acc_session a)) (after_reply (remote c))))
            (App.loading (local c)) "")
         (run_single (profile_query (user_id (acc_session a)))
            (with_stored_session (Some (acc_session a)) (after_reply (remote c)))).2
         ((frames c ++ [App.State (App.session (local c)) (App.profile (local c))
                                   (App.loading (local c)) ""]) ++
          [App.State (Some (acc_session a)) (App.profile (local c))
                     (App.loading (local c)) ""]))) as Hrun.
  { unfold App.handleLogin, bind, App.setError, App.setSession, set_state.
    rewrite await_run. cbn [local remote frames].
    rewrite (signIn_accepted _ _ _ a Hfind Hok).
    cbn [fst snd data default from_option id local remote frames].
    rewrite fetchProfile_run. reflexivity. }
  rewrite Hrun. cbn [fst snd local remote].
  split; [done |]. split; [done |]. split.
  - by rewrite profile_query_eq, lookup_leaves_world.
  - intros Hl. unfold App.render. cbn [App.loading App.session App.profile].
    by rewrite Hl.
Qed.
End ResolverMore.

(** ** The manager dashboard: loads and mutations that succeed *)

Section ManagerRuns.
Implicit Types (c : cfg ManagerDashboard.state) (st : ManagerDashboard.state).

Lemma loadEmployees_run c :
  ManagerDashboard.loadEmployees c =
    let reply := run employees_query (remote c) in
    (Ret tt,
     Cfg (ManagerDashboard.State
            (match error reply.1 with
             | Some _ => ManagerDashboard.employees (local c)
             | None => default [] (data reply.1)
             end)
            false
            (match error reply.1 with
             | Some _ => "Could not load employees"
             | None => ""
             end)
            (ManagerDashboard.editingEmployee (local c))
            (ManagerDashboard.tasks (local c))
            (ManagerDashboard.tasksLoading (local c))
            (ManagerDashboard.tasksError (local c))
            (ManagerDashboard.editingTask (local c)))
         reply.2
         (frames c ++
          [ManagerDashboard.State
             (ManagerDashboard.employees (local c)) true ""
             (ManagerDashboard.editingEmployee (local c))
             (ManagerDashboard.tasks (local c))
             (ManagerDashboard.tasksLoading (local c))
             (ManagerDashboard.tasksError (local c))
             (ManagerDashboard.editingTask (local c))])).
Proof.
  unfold ManagerDashboard.loadEmployees, ManagerDashboard.setLoading,
    ManagerDashboard.setError, ManagerDashboard.setEmployees, bind, set_state.
  rewrite await_run. cbn [local remote frames]. cbv zeta.
  change (sb_order "full_name" true
            (sb_select ManagerDashboard.employee_columns "employees"))
    with employees_query.
  destruct (run employees_query (remote c)) as [[d [e|]] w']; reflexivity.
Qed.

Lemma loadTasks_run c :
  ManagerDashboard.loadTasks c =
    let reply := run manager_tasks_query (remote c) in
    (Ret tt,
     Cfg (ManagerDashboard.State
            (ManagerDashboard.employees (local c))
            (ManagerDashboard.loading (local c))
            (ManagerDashboard.error (local c))
            (ManagerDashboard.editingEmployee (local c))
            (match error reply.1 with
             | Some _ => ManagerDashboard.tasks (local c)
             | None => default [] (data reply.1)
             end)
            false
            (match error reply.1 with
             | Some _ => "Could not load tasks"
             | None => ""
             end)
            (ManagerDashboard.editingTask (local c)))
         reply.2
         (frames c ++
          [ManagerDashboard.State
             (ManagerDashboard.employees (local c))
             (ManagerDashboard.loading (local c))
             (ManagerDashboard.error (local c))
             (ManagerDashboard.editingEmployee (local c))
             (ManagerDashboard.tasks (local c)) true ""
             (ManagerDashboard.editingTask (local c))])).
Proof.
  unfold ManagerDashboard.loadTasks, ManagerDashboard.setTasksLoading,
    ManagerDashboard.setTasksError, ManagerDashboard.setTasks,
    bind, set_state, finally, try_catch.
  rewrite getTasksForManager_run. cbn [local remote frames]. cbv zeta.
  unfold resumed, rows_or_throw.
  destruct (run manager_tasks_query (remote c)) as [[d [e|]] w']; reflexivity.
Qed.
Lemma section_loaded (err : string) (rows : list obj) :
  ManagerDashboard.render_section false err rows =
    ManagerDashboard.SectionView false
      (if truthy (JStr err) then Some err else None)
      (bool_decide (length rows = 0%nat))
      (if bool_decide (length rows = 0%nat) then None else Some rows).
Proof.
  unfold ManagerDashboard.render_section. cbn [negb andb]. f_equal.
  destruct rows; reflexivity.
Qed.

Lemma length_sorted (c : string) (asc : bool) (rows : list obj) :
  length (merge_sort (row_before c asc) rows) = length rows.
Proof. apply Permutation_length, merge_sort_Permutation. Qed.

Lemma full_name_selected : "full_name" ∈ ManagerDashboard.employee_columns.
Proof. unfold ManagerDashboard.employee_columns. set_solver. Qed.

(** X8: the two list loads of the manager dashboard are independent and
    always settle.  [loadEmployees] never touches the tasks section or the
    employee form, [loadTasks] never touches the employees section or the
    task form, and each ends with its own loading note off, whatever the
    reply.  When the request is answered the list becomes the whole table in
    the selected columns (employees by name ascending, tasks by creation
    time descending), the section's error is cleared, and the section shows
    the 'No ... yet.' note exactly when the table is empty and the table
    rows otherwise. *)
Theorem manager_loads_settle c :
  (tasks_section_kept (local c) (local (ManagerDashboard.loadEmployees c).2) ∧
   ManagerDashboard.editingEmployee (local (ManagerDashboard.loadEmployees c).2) =
     ManagerDashboard.editingEmployee (local c) ∧
   ManagerDashboard.loading (local (ManagerDashboard.loadEmployees c).2) = false ∧
   (next_reply (remote c) = Answer →
    ManagerDashboard.employees (local (ManagerDashboard.loadEmployees c).2)
      ≡ₚ project ManagerDashboard.employee_columns <$> table "employees" (remote c) ∧
    StronglySorted (row_before "full_name" true)
      (ManagerDashboard.employees (local (ManagerDashboard.loadEmployees c).2)) ∧
    ManagerDashboard.employees_part
      (ManagerDashboard.render (local (ManagerDashboard.loadEmployees c).2)) =
      ManagerDashboard.SectionView false None
        (bool_decide (length (table "employees" (remote c)) = 0%nat))
        (if bool_decide (length (table "employees" (remote c)) = 0%nat) then None
         else Some (ManagerDashboard.employees
                      (local (ManagerDashboard.loadEmployees c).2))))) ∧
  (employees_section_kept (local c) (local (ManagerDashboard.loadTasks c).2) ∧
   ManagerDashboard.editingTask (local (ManagerDashboard.loadTasks c).2) =
     ManagerDashboard.editingTask (local c) ∧
   ManagerDashboard.tasksLoading (local (ManagerDashboard.loadTasks c).2) = false ∧
   (next_reply (remote c) = Answer →
    ManagerDashboard.tasks (local (ManagerDashboard.loadTasks c).2)
      ≡ₚ project task_columns <$> table "tasks" (remote c) ∧
    StronglySorted (row_before "created_at" false)
      (ManagerDashboard.tasks (local (ManagerDashboard.loadTasks c).2)) ∧
    ManagerDashboard.tasks_part
      (ManagerDashboard.render (local (ManagerDashboard.loadTasks c).2)) =
      ManagerDashboard.SectionView false None
        (bool_decide (length (table "tasks" (remote c)) = 0%nat))
        (if bool_decide (length (table "tasks" (remote c)) = 0%nat) then None
         else Some (ManagerDashboard.tasks
                      (local (ManagerDashboard.loadTasks c).2))))).
Proof.
  rewrite loadEmployees_run, loadTasks_run. cbv zeta.
  cbn [snd local ManagerDashboard.employees ManagerDashboard.loading
       ManagerDashboard.error ManagerDashboard.editingEmployee
       ManagerDashboard.tasks ManagerDashboard.tasksLoading
       ManagerDashboard.tasksError ManagerDashboard.editingTask].
  split.
  - split; [by repeat split |]. split; [done |]. split; [done |].
    intros Hans. rewrite run_Answer by done.
    unfold employees_query. rewrite serve_Select.
    cbn [fst error data default from_option id order_rows].
    rewrite manager_filter, table_after_reply.
    split; [by rewrite merge_sort_Permutation |].
    split; [apply project_sorted, full_name_selected |].
    unfold ManagerDashboard.render.
    cbn [ManagerDashboard.employees_part ManagerDashboard.loading
         ManagerDashboard.error ManagerDashboard.employees].
    rewrite section_loaded. cbn [truthy String.eqb negb].
    by rewrite length_fmap, length_sorted.
  - split; [by repeat split |]. split; [done |]. split; [done |].
    intros Hans. rewrite run_Answer by done.
    rewrite manager_tasks_query_eq, serve_Select.
    cbn [fst error data default from_option id order_rows].
    rewrite manager_filter, table_after_reply.
    split; [by rewrite merge_sort_Permutation |].
    split; [apply project_sorted, created_at_selected |].
    unfold ManagerDashboard.render.
    cbn [ManagerDashboard.tasks_part ManagerDashboard.tasksLoading
         ManagerDashboard.tasksError ManagerDashboard.tasks].
    rewrite section_loaded. cbn [truthy String.eqb negb].
    by rewrite length_fmap, length_sorted.
Qed.
End ManagerRuns.

Section ManagerSaves.
Implicit Types (c : cfg ManagerDashboard.state) (st : ManagerDashboard.state).

Lemma saveTask_reloads (taskValues : obj) c :
  is_failure (next_reply (remote c)) = false →
  ManagerDashboard.saveTask taskValues c =
    ManagerDashboard.loadTasks (after_save taskValues c).
Proof.
  intros Hok.
  unfold ManagerDashboard.saveTask, after_save, save_request,
    ManagerDashboard.setTasksError, ManagerDashboard.setEditingTask,
    bind, set_state, try_catch.
  cbn [local remote frames].
  destruct (truthy (get taskValues "id")).
  - rewrite updateTask_run. cbv zeta. cbn [remote]. rewrite !run_Update.
    destruct (next_reply (remote c)); try done;
      cbn [fst snd throw_on_error error ret]; unfold resumed;
      cbn [local remote frames ManagerDashboard.employees
           ManagerDashboard.loading ManagerDashboard.error
           ManagerDashboard.editingEmployee ManagerDashboard.tasks
           ManagerDashboard.tasksLoading ManagerDashboard.tasksError
           ManagerDashboard.editingTask];
      rewrite loadTasks_run; reflexivity.
  - rewrite createTask_run. cbv zeta. cbn [remote]. rewrite !run_Insert_one.
    destruct (next_reply (remote c)); try done;
      cbn [fst snd throw_on_error error ret]; unfold resumed;
      cbn [local remote frames ManagerDashboard.employees
           ManagerDashboard.loading ManagerDashboard.error
           ManagerDashboard.editingEmployee ManagerDashboard.tasks
           ManagerDashboard.tasksLoading ManagerDashboard.tasksError
           ManagerDashboard.editingTask];
      rewrite loadTasks_run; reflexivity.
Qed.

Lemma after_save_world (taskValues : obj) c :
  is_failure (next_reply (remote c)) = false →
  table "tasks" (remote (after_save taskValues c)) = saved_tasks taskValues (remote c) ∧
  next_reply (remote (after_save taskValues c)) = next_reply (after_reply (remote c)).
Proof.
  intros Hok. unfold after_save, save_request, saved_tasks, inserted_row.
  cbn [remote]. destruct (truthy (get taskValues "id")).
  - rewrite run_Update. destruct (next_reply (remote c)); try done;
      cbn [snd]; by rewrite table_with_table, decide_True.
  - rewrite run_Insert_one. destruct (next_reply (remote c)); try done;
      cbn [snd]; by rewrite table_with_fresh_id, table_with_table, decide_True.
Qed.

(** X9: when both the mutation and the reload of [saveTask] get through,
    the form values are stored (as an update of the rows with the form's id
    when that id is truthy, as one new row otherwise), the task form is
    closed, the tasks error is cleared, and the local task list is the
    stored table in the selected columns, newest first; the employees
    section is untouched. *)
Theorem saveTask_stores_and_reloads c (taskValues : obj) :
  is_failure (next_reply (remote c)) = false →
  next_reply (after_reply (remote c)) = Answer →
  table "tasks" (remote (ManagerDashboard.saveTask taskValues c).2) =
    saved_tasks taskValues (remote c) ∧
  ManagerDashboard.tasks (local (ManagerDashboard.saveTask taskValues c).2)
    ≡ₚ project task_columns <$> saved_tasks taskValues (remote c) ∧
  StronglySorted (row_before "created_at" false)
    (ManagerDashboard.tasks (local (ManagerDashboard.saveTask taskValues c).2)) ∧
  ManagerDashboard.editingTask (local (ManagerDashboard.saveTask taskValues c).2) = None ∧
  ManagerDashboard.tasksError (local (ManagerDashboard.saveTask taskValues c).2) = "" ∧
  ManagerDashboard.tasksLoading (local (ManagerDashboard.saveTask taskValues c).2) = false ∧
  employees_section_kept (local c)
    (local (ManagerDashboard.saveTask taskValues c).2).
Proof.
  intros Hok Hans. rewrite (saveTask_reloads _ _ Hok).
  destruct (after_save_world taskValues c Hok) as [Htable Hnext].
  rewrite Hans in Hnext.
  rewrite loadTasks_run. cbv zeta. rewrite run_Answer by done.
  rewrite manager_tasks_query_eq, serve_Select.
  cbn [fst snd local remote error data default from_option id order_rows
       ManagerDashboard.tasks ManagerDashboard.editingTask
       ManagerDashboard.tasksError ManagerDashboard.tasksLoading].
  rewrite manager_filter, table_after_reply, Htable.
  split; [done |]. split; [by rewrite merge_sort_Permutation |].
  split; [apply project_sorted, created_at_selected |].
  by repeat split.
Qed.
(** X10: when [saveTask] stores the form values but its reload fails, the
    store holds the change and the form is closed, yet the local list is
    the old one and the message is the one of a failed load, 'Could not load
    tasks', not the one of a failed save. *)
Theorem saveTask_stored_but_not_reloaded c (taskValues : obj) (e : remote_error) :
  is_failure (next_reply (remote c)) = false →
  next_reply (after_reply (remote c)) = Failure e →
  table "tasks" (remote (ManagerDashboard.saveTask taskValues c).2) =
    saved_tasks taskValues (remote c) ∧
  ManagerDashboard.tasks (local (ManagerDashboard.saveTask taskValues c).2) =
    ManagerDashboard.tasks (local c) ∧
  ManagerDashboard.editingTask (local (ManagerDashboard.saveTask taskValues c).2) = None ∧
  ManagerDashboard.tasksError (local (ManagerDashboard.saveTask taskValues c).2) =
    "Could not load tasks" ∧
  ManagerDashboard.tasksLoading (local (ManagerDashboard.saveTask taskValues c).2) = false ∧
  employees_section_kept (local c)
    (local (ManagerDashboard.saveTask taskValues c).2).
Proof.
  intros Hok Hfail. rewrite (saveTask_reloads _ _ Hok).
  destruct (after_save_world taskValues c Hok) as [Htable Hnext].
  rewrite Hfail in Hnext.
  rewrite loadTasks_run. cbv zeta. rewrite (run_Failure _ _ e) by done.
  cbn [fst snd local remote error data ManagerDashboard.tasks
       ManagerDashboard.editingTask ManagerDashboard.tasksError
       ManagerDashboard.tasksLoading].
  rewrite table_after_reply, Htable.
  by repeat split.
Qed.

Lemma handleDeleteTask_reloads (id : jsval) c :
  is_failure (next_reply (remote c)) = false →
  ManagerDashboard.handleDeleteTask true id c =
    ManagerDashboard.loadTasks (after_delete id c).
Proof.
  intros Hok.
  unfold ManagerDashboard.handleDeleteTask, after_delete, bind, try_catch.
  cbn [negb]. rewrite deleteTask_run. cbv zeta. rewrite !run_Delete.
  destruct (next_reply (remote c)); try done;
    cbn [fst snd throw_on_error error ret];
    rewrite loadTasks_run; reflexivity.
Qed.

(** X11: a declined confirmation makes [handleDeleteTask] do nothing at
    all.  A confirmed one whose requests get through removes the rows with
    that id from the store and reloads: the local list is the remaining
    table and holds no row with that id, the tasks error is cleared; the
    task form is left as it is, even when it shows the deleted task. *)
Theorem handleDeleteTask_deletes_and_reloads c (id : jsval) :
  ManagerDashboard.handleDeleteTask false id c = (Ret tt, c) ∧
  (id ≠ JNull → id ≠ JUndefined →
   is_failure (next_reply (remote c)) = false →
   next_reply (after_reply (remote c)) = Answer →
   table "tasks" (remote (ManagerDashboard.handleDeleteTask true id c).2) =
     filter (λ t, t !! "id" ≠ Some id) (table "tasks" (remote c)) ∧
   ManagerDashboard.tasks (local (ManagerDashboard.handleDeleteTask true id c).2)
     ≡ₚ project task_columns <$>
          filter (λ t, t !! "id" ≠ Some id) (table "tasks" (remote c)) ∧
   Forall (λ r, get r "id" ≠ id)
     (ManagerDashboard.tasks (local (ManagerDashboard.handleDeleteTask true id c).2)) ∧
   ManagerDashboard.tasksError
     (local (ManagerDashboard.handleDeleteTask true id c).2) = "" ∧
   ManagerDashboard.tasksLoading
     (local (ManagerDashboard.handleDeleteTask true id c).2) = false ∧
   ManagerDashboard.editingTask
     (local (ManagerDashboard.handleDeleteTask true id c).2) =
     ManagerDashboard.editingTask (local c) ∧
   employees_section_kept (local c)
     (local (ManagerDashboard.handleDeleteTask true id c).2)).
Proof.
  split; [reflexivity |].
  intros Hn1 Hn2 Hok Hans. rewrite (handleDeleteTask_reloads _ _ Hok).
  assert (table "tasks" (remote (after_delete id c)) =
            filter (λ t, t !! "id" ≠ Some id) (table "tasks" (remote c)) ∧
          next_reply (remote (after_delete id c)) = Answer) as [Htable Hnext].
  { unfold after_delete, resumed. cbn [remote]. rewrite run_Delete.
    destruct (next_reply (remote c)); try done; cbn [snd];
      by rewrite table_with_table, decide_True, delete_filter. }
  rewrite loadTasks_run. cbv zeta. rewrite run_Answer by done.
  rewrite manager_tasks_query_eq, serve_Select.
  cbn [fst snd local remote error data default from_option Datatypes.id order_rows
       ManagerDashboard.tasks ManagerDashboard.editingTask
       ManagerDashboard.tasksError ManagerDashboard.tasksLoading].
  rewrite manager_filter, table_after_reply, Htable.
  split; [done |]. split; [by rewrite merge_sort_Permutation |].
  split; [| by repeat split].
  apply Forall_forall. intros r [t [-> Ht]]%list_elem_of_fmap.
  rewrite merge_sort_Permutation in Ht.
  apply list_elem_of_filter in Ht as [Hne _].
  rewrite get_project, decide_True by apply id_selected.
  unfold column. destruct (t !! "id") as [v|]; simpl; congruence.
Qed.

Lemma saveEmployee_reloads (formValues : obj) c :
  is_failure (next_reply (remote c)) = false →
  ManagerDashboard.saveEmployee formValues c =
    ManagerDashboard.loadEmployees (after_employee_save formValues c).
Proof.
  intros Hok.
  unfold ManagerDashboard.saveEmployee, after_employee_save,
    save_employee_request, employee_record,
    ManagerDashboard.setError, ManagerDashboard.setEditingEmployee,
    bind, set_state.
  cbn [local remote frames].
  destruct (truthy (get formValues "id")).
  - rewrite await_run. cbn [local remote frames fst snd].
    unfold sb_eq, sb_update. cbn [r_table r_verb r_filters r_order app].
    rewrite !run_Update.
    destruct (next_reply (remote c)); try done; reflexivity.
  - rewrite await_run. cbn [local remote frames fst snd].
    unfold sb_insert. rewrite !run_Insert_one.
    destruct (next_reply (remote c)); try done; reflexivity.
Qed.

Lemma after_employee_save_world (formValues : obj) c :
  is_failure (next_reply (remote c)) = false →
  table "employees" (remote (after_employee_save formValues c)) =
    saved_employees formValues (remote c) ∧
  next_reply (remote (after_employee_save formValues c)) =
    next_reply (after_reply (remote c)) ∧
  script (remote (after_employee_save formValues c)) = tail (script (remote c)).
Proof.
  intros Hok. unfold after_employee_save, save_employee_request,
    saved_employees, inserted_row.
  cbn [remote]. destruct (truthy (get formValues "id")).
  - rewrite run_Update. destruct (next_reply (remote c)); try done;
      cbn [snd]; by rewrite table_with_table, decide_True.
  - rewrite run_Insert_one. destruct (next_reply (remote c)); try done;
      cbn [snd]; by rewrite table_with_fresh_id, table_with_table, decide_True.
Qed.

(** X12: when both requests of [saveEmployee] get through, the form values
    are stored (as an update of the rows with the form's id when that id is
    truthy, as one new row otherwise), the employee form is closed, the
    employees error is cleared, and the local list is the stored table in
    the selected columns, ordered by name; the tasks section is
    untouched. *)
Theorem saveEmployee_stores_and_reloads c (formValues : obj) :
  is_failure (next_reply (remote c)) = false →
  next_reply (after_reply (remote c)) = Answer →
  table "employees" (remote (ManagerDashboard.saveEmployee formValues c).2) =
    saved_employees formValues (remote c) ∧
  ManagerDashboard.employees (local (ManagerDashboard.saveEmployee formValues c).2)
    ≡ₚ project ManagerDashboard.employee_columns <$>
         saved_employees formValues (remote c) ∧
  StronglySorted (row_before "full_name" true)
    (ManagerDashboard.employees
       (local (ManagerDashboard.saveEmployee formValues c).2)) ∧
  ManagerDashboard.editingEmployee
    (local (ManagerDashboard.saveEmployee formValues c).2) = None ∧
  ManagerDashboard.error (local (ManagerDashboard.saveEmployee formValues c).2) = "" ∧
  ManagerDashboard.loading (local (ManagerDashboard.saveEmployee formValues c).2) = false ∧
  tasks_section_kept (local c)
    (local (ManagerDashboard.saveEmployee formValues c).2).
Proof.
  intros Hok Hans. rewrite (saveEmployee_reloads _ _ Hok).
  destruct (after_employee_save_world formValues c Hok) as (Htable & Hnext & _).
  rewrite Hans in Hnext.
  rewrite loadEmployees_run. cbv zeta. rewrite run_Answer by done.
  unfold employees_query. rewrite serve_Select.
  cbn [fst snd local remote error data default from_option id order_rows
       ManagerDashboard.employees ManagerDashboard.editingEmployee
       ManagerDashboard.error ManagerDashboard.loading].
  rewrite manager_filter, table_after_reply, Htable.
  split; [done |]. split; [by rewrite merge_sort_Permutation |].
  split; [apply project_sorted, full_name_selected |].
  by repeat split.
Qed.
Lemma query_leaves_world t cols fs o w :
  (run (Request t (Select cols) fs o) w).2 = after_reply w.
Proof.
  unfold run, remote_call. rewrite serve_Select. by destruct (next_reply w).
Qed.

Lemma saveEmployee_world (formValues : obj) c :
  is_failure (next_reply (remote c)) = false →
  table "employees" (remote (ManagerDashboard.saveEmployee formValues c).2) =
    saved_employees formValues (remote c) ∧
  script (remote (ManagerDashboard.saveEmployee formValues c).2) =
    tail (tail (script (remote c))).
Proof.
  intros Hok. rewrite (saveEmployee_reloads _ _ Hok).
  destruct (after_employee_save_world formValues c Hok) as (Htable & _ & Hscript).
  rewrite loadEmployees_run. cbv zeta. cbn [snd remote].
  unfold employees_query. rewrite query_leaves_world.
  rewrite table_after_reply, Htable. split; [done |].
  unfold after_reply. cbn [script with_script]. by rewrite Hscript.
Qed.

Lemma employee_body_has_no_id (formValues : obj) :
  to_json (employee_record formValues) !! "id" = None.
Proof.
  rewrite lookup_to_json. unfold employee_record, object.
  rewrite !list_to_map_cons, list_to_map_nil.
  by rewrite !lookup_insert_ne, lookup_empty.
Qed.

(** X13: saving an existing employee (a form with a truthy id, every
    request answered) leaves every row with another id exactly as it is,
    and is idempotent: saving the same values a second time leaves the
    employees table as the first save left it. *)
Theorem saveEmployee_update_is_idempotent c (formValues : obj) :
  truthy (get formValues "id") = true →
  script (remote c) = [] →
  (∀ (i : nat) (r : obj),
     table "employees" (remote c) !! i = Some r →
     r !! "id" ≠ Some (get formValues "id") →
     table "employees" (remote (ManagerDashboard.saveEmployee formValues c).2) !! i =
       Some r) ∧
  table "employees"
    (remote (ManagerDashboard.saveEmployee formValues
               (ManagerDashboard.saveEmployee formValues c).2).2) =
  table "employees" (remote (ManagerDashboard.saveEmployee formValues c).2).
Proof.
  intros Hid Hscript.
  assert (is_failure (next_reply (remote c)) = false) as Hok
    by (unfold next_reply; by rewrite Hscript).
  destruct (saveEmployee_world formValues c Hok) as [Hfirst Hscript1].
  rewrite Hscript in Hscript1. cbn [tail] in Hscript1.
  assert (is_failure
            (next_reply (remote (ManagerDashboard.saveEmployee formValues c).2)) =
          false) as Hok1 by (unfold next_reply; by rewrite Hscript1).
  destruct (saveEmployee_world formValues _ Hok1) as [Hsecond _].
  unfold saved_employees in Hfirst, Hsecond. rewrite Hid in Hfirst, Hsecond.
  split.
  - intros i r Hr Hne. rewrite Hfirst, list_lookup_fmap, Hr. cbn [fmap option_fmap option_map].
    f_equal. unfold apply_patch.
    destruct (matches [("id", get formValues "id")] r) eqn:Hm; [| done].
    by apply matches_single in Hm as (_ & _ & ?).
  - rewrite Hsecond, Hfirst, <- list_fmap_compose.
    apply list_fmap_ext. intros i r _. simpl.
    apply patch_idempotent, employee_body_has_no_id.
Qed.
End ManagerSaves.

(** ** The forms of the manager dashboard *)

Section Forms.
Implicit Types (c : cfg ManagerDashboard.state) (st : ManagerDashboard.state).

Lemma input_events_run (events : list (string * string)) (k : cfg obj) :
  Form.input_events events k =
    (Ret tt,
     Cfg (foldl (λ form ev, <[ev.1 := JStr ev.2]> form) (local k) events)
         (remote k) (frames k)).
Proof.
  revert k. induction events as [|[name value] events IH]; intros k.
  - by destruct k.
  - cbn [Form.input_events foldl]. unfold bind, Form.handleChange, set_state.
    by rewrite IH.
Qed.

Lemma edits_keep_other_fields (events : list (string * string)) (form : obj)
    (name : string) :
  name ∉ events.*1 →
  foldl (λ form ev, <[ev.1 := JStr ev.2]> form) form events !! name = form !! name.
Proof.
  revert form. induction events as [|[n v] events IH]; intros form Hnot; [done |].
  cbn [foldl]. rewrite fmap_cons, not_elem_of_cons in Hnot.
  destruct Hnot as [Hne Hnot]. rewrite IH by done.
  by rewrite lookup_insert_ne.
Qed.

Lemma id_is_no_input (inputs : list string) (events : list (string * string)) :
  "id" ∉ inputs → Forall (λ ev, ev.1 ∈ inputs) events → "id" ∉ events.*1.
Proof.
  intros Hnot Hall [ev [Hid Hin]]%list_elem_of_fmap.
  rewrite Forall_forall in Hall. apply Hnot. rewrite Hid. by apply Hall.
Qed.

(** X14: typing into a form changes only the fields that were typed into
    and never the record's id, because no input of [TaskForm] or of
    [EmployeeForm] is named 'id'.  So the heading that the form shows for
    the record it was opened on ('Edit ...' or 'Add ...') tells which way
    the submitted values are saved: as an update exactly when the heading
    is the 'Edit' one. *)
Theorem form_inputs_keep_the_id (record : obj) (events : list (string * string))
    (w : world) :
  (Form.input_events events (Cfg record w [])).1 = Ret tt ∧
  remote (Form.input_events events (Cfg record w [])).2 = w ∧
  (∀ name, name ∉ events.*1 →
     local (Form.input_events events (Cfg record w [])).2 !! name = record !! name) ∧
  (Forall (λ ev, ev.1 ∈ Form.task_inputs) events →
   get (local (Form.input_events events (Cfg record w [])).2) "id" = get record "id" ∧
   (Form.task_heading record = "Edit Task" ↔
    truthy (get (local (Form.input_events events (Cfg record w [])).2) "id") = true)) ∧
  (Forall (λ ev, ev.1 ∈ Form.employee_inputs) events →
   get (local (Form.input_events events (Cfg record w [])).2) "id" = get record "id" ∧
   (Form.employee_heading record = "Edit Employee" ↔
    truthy (get (local (Form.input_events events (Cfg record w [])).2) "id") = true)).
Proof.
  rewrite input_events_run. cbn [fst snd local remote].
  split; [done |]. split; [done |].
  split; [intros name Hnot; by apply edits_keep_other_fields |].
  split; intros Hall.
  - assert ("id" ∉ events.*1) as Hid.
    { apply (id_is_no_input Form.task_inputs); [| done].
      unfold Form.task_inputs. rewrite !elem_of_cons, elem_of_nil.
      by intros [|[|[|[|[|]]]]]. }
    unfold Form.task_heading, get. rewrite edits_keep_other_fields by done.
    split; [done |].
    destruct (truthy (default JUndefined (record !! "id"))); by split.
  - assert ("id" ∉ events.*1) as Hid.
    { apply (id_is_no_input Form.employee_inputs); [| done].
      unfold Form.employee_inputs. rewrite !elem_of_cons, elem_of_nil.
      by intros [|[|[|[|]]]]. }
    unfold Form.employee_heading, get. rewrite edits_keep_other_fields by done.
    split; [done |].
    destruct (truthy (default JUndefined (record !! "id"))); by split.
Qed.
End Forms.

Section OpeningForms.
Implicit Types (c : cfg ManagerDashboard.state) (st : ManagerDashboard.state).

Lemma saveTask_world (taskValues : obj) c :
  is_failure (next_reply (remote c)) = false →
  (ManagerDashboard.saveTask taskValues c).1 = Ret tt ∧
  table "tasks" (remote (ManagerDashboard.saveTask taskValues c).2) =
    saved_tasks taskValues (remote c).
Proof.
  intros Hok. rewrite (saveTask_reloads _ _ Hok).
  destruct (after_save_world taskValues c Hok) as [Htable _].
  rewrite loadTasks_run. cbv zeta. cbn [fst snd remote].
  rewrite manager_tasks_query_eq, query_leaves_world.
  by rewrite table_after_reply, Htable.
Qed.

Lemma startCreateTask_run c :
  ManagerDashboard.startCreateTask c =
    (Ret tt,
     with_task_form (new_task_skeleton (ManagerDashboard.employees (local c))) c).
Proof. reflexivity. Qed.

Lemma skeleton_fields (employees : list obj) :
  get (new_task_skeleton employees) "id" = JNull ∧
  to_json (task_record (new_task_skeleton employees)) !! "title" = Some (JStr "") ∧
  to_json (task_record (new_task_skeleton employees)) !! "status" = Some (JStr "todo") ∧
  to_json (task_record (new_task_skeleton employees)) !! "due_date" = Some JNull ∧
  to_json (task_record (new_task_skeleton employees)) !! "employee_email" =
    Some (ManagerDashboard.firstEmployeeEmail employees).
Proof.
  assert (∀ col, get (new_task_skeleton employees) col =
                 default JUndefined (new_task_skeleton employees !! col)) as Hget
    by done.
  assert (ManagerDashboard.firstEmployeeEmail employees ≠ JUndefined) as Hdef.
  { unfold ManagerDashboard.firstEmployeeEmail, js_or.
    by destruct (truthy _) eqn:Ht; [intros Heq; rewrite Heq in Ht |]. }
  split; [reflexivity |].
  rewrite !lookup_task_body.
  repeat split; try reflexivity.
  rewrite decide_False, decide_True by (done || (unfold copied_fields; set_solver)).
  rewrite decide_False; [reflexivity |]. exact Hdef.
Qed.

(** X15: [startCreateTask] opens the task form on a skeleton without id,
    with status 'todo', no due date, and the first listed employee as
    assignee; with no employees listed (or a first one without email) the
    assignee is the empty string.  Saving that untouched form, once the
    request gets through, does not throw and appends one task row with an
    empty title, status 'todo', a null due date and that assignee. *)
Theorem startCreateTask_opens_an_insert_form c :
  (ManagerDashboard.startCreateTask c).1 = Ret tt ∧
  ManagerDashboard.editingTask (local (ManagerDashboard.startCreateTask c).2) =
    Some (new_task_skeleton (ManagerDashboard.employees (local c))) ∧
  remote (ManagerDashboard.startCreateTask c).2 = remote c ∧
  Form.task_heading (new_task_skeleton (ManagerDashboard.employees (local c))) =
    "Add Task" ∧
  (ManagerDashboard.employees (local c) = [] →
   ManagerDashboard.firstEmployeeEmail (ManagerDashboard.employees (local c)) =
     JStr "") ∧
  (∀ (first : obj) (rest : list obj) (email : string),
     ManagerDashboard.employees (local c) = first :: rest →
     get first "email" = JStr email → email ≠ "" →
     ManagerDashboard.firstEmployeeEmail (ManagerDashboard.employees (local c)) =
       JStr email) ∧
  (is_failure (next_reply (remote c)) = false →
   (ManagerDashboard.saveTask
      (new_task_skeleton (ManagerDashboard.employees (local c)))
      (ManagerDashboard.startCreateTask c).2).1 = Ret tt ∧
   ∃ r : obj,
     table "tasks"
       (remote (ManagerDashboard.saveTask
                  (new_task_skeleton (ManagerDashboard.employees (local c)))
                  (ManagerDashboard.startCreateTask c).2).2) =
       table "tasks" (remote c) ++ [r] ∧
     r !! "title" = Some (JStr "") ∧
     r !! "status" = Some (JStr "todo") ∧
     r !! "due_date" = Some JNull ∧
     r !! "employee_email" =
       Some (ManagerDashboard.firstEmployeeEmail
               (ManagerDashboard.employees (local c)))).
Proof.
  rewrite startCreateTask_run. cbn [fst snd local remote with_task_form
                                     ManagerDashboard.editingTask].
  split; [done |]. split; [done |]. split; [done |].
  split; [reflexivity |].
  split; [by intros -> |].
  split.
  - intros first rest email -> Hmail Hne.
    unfold ManagerDashboard.firstEmployeeEmail, js_or. rewrite Hmail.
    cbn [truthy]. by destruct (String.eqb_spec email "").
  - intros Hok.
    destruct (saveTask_world
                (new_task_skeleton (ManagerDashboard.employees (local c)))
                (with_task_form
                   (new_task_skeleton (ManagerDashboard.employees (local c))) c)
                Hok) as [Hret Htable].
    split; [exact Hret |]. rewrite Htable.
    unfold saved_tasks, with_task_form. cbn [remote].
    destruct (skeleton_fields (ManagerDashboard.employees (local c)))
      as (Hid & Htitle & Hstatus & Hdue & Hmail).
    rewrite Hid. cbn [truthy].
    eexists. split; [reflexivity |]. unfold inserted_row.
    by repeat split; apply lookup_union_Some_l.
Qed.
Lemma substring_short (n : nat) (s : string) :
  (String.length s ≤ n)%nat → String.substring 0 n s = s.
Proof.
  revert n. induction s as [|a s IH]; intros [|n] Hlen; simpl in *;
    try done; try lia.
  f_equal. apply IH. lia.
Qed.

Lemma startEditTask_run (t : obj) c :
  date_input (column t "due_date") →
  ManagerDashboard.startEditTask (project task_columns t) c =
    (Ret tt, with_task_form (edit_form t) c).
Proof.
  intros Hdate.
  unfold ManagerDashboard.startEditTask, edit_form, with_task_form, bind,
    ManagerDashboard.setEditingTask, set_state.
  rewrite get_project, decide_True by (unfold task_columns; set_solver).
  destruct (column t "due_date") as [| |b|n|s]; try done.
  cbn [truthy date_in_form]. destruct (String.eqb_spec s "") as [->|Hs]; done.
Qed.

Lemma get_edit_form (t : obj) (col : string) :
  col ∈ task_columns → col ≠ "due_date" → get (edit_form t) col = column t col.
Proof.
  intros Hcol Hne. unfold edit_form, get.
  rewrite lookup_insert_ne by done.
  by rewrite lookup_project, decide_True.
Qed.

Lemma due_date_of_edit_form (t : obj) :
  date_input (column t "due_date") →
  js_or (get (edit_form t) "due_date") JNull = date_part (column t "due_date").
Proof.
  intros Hdate. unfold edit_form, get. rewrite lookup_insert_eq.
  cbn [default from_option Datatypes.id].
  destruct (column t "due_date") as [| |b|n|s]; try done.
  cbn [date_in_form date_part]. unfold js_or. cbn [truthy].
  destruct s as [|a s]; reflexivity.
Qed.

(** X16: [startEditTask] opens the form on the listed row of a task, with
    the due date cut to its first ten characters.  Saving that form
    unchanged (the task's id being truthy, the request getting through)
    goes the update way, leaves every row with another id exactly as it is,
    and leaves the edited row with the same value in every column, except
    that a stored due date longer than ten characters is cut to its first
    ten.  The form's heading is 'Edit Task'. *)
Theorem edit_without_change_keeps_the_task c (t : obj) (id : jsval) :
  t !! "id" = Some id →
  truthy id = true →
  date_input (column t "due_date") →
  is_failure (next_reply (remote c)) = false →
  ManagerDashboard.startEditTask (project task_columns t) c =
    (Ret tt, with_task_form (edit_form t) c) ∧
  Form.task_heading (edit_form t) = "Edit Task" ∧
  (ManagerDashboard.saveTask (edit_form t) (with_task_form (edit_form t) c)).1 =
    Ret tt ∧
  ∀ (i : nat) (t0 : obj),
    table "tasks" (remote c) !! i = Some t0 →
    ∃ t1 : obj,
      table "tasks"
        (remote (ManagerDashboard.saveTask (edit_form t)
                   (with_task_form (edit_form t) c)).2) !! i = Some t1 ∧
      (t0 !! "id" ≠ Some id → t1 = t0) ∧
      (t0 = t →
       column t1 "due_date" = date_part (column t "due_date") ∧
       (∀ col, col ≠ "due_date" → column t1 col = column t col) ∧
       (∀ s, column t "due_date" = JStr s → s ≠ "" →
             (String.length s ≤ 10)%nat → column t1 "due_date" = JStr s) ∧
       (column t "due_date" = JNull → column t1 "due_date" = JNull)).
Proof.
  intros Hid Htruthy Hdate Hok.
  assert (get (edit_form t) "id" = id) as Hformid.
  { rewrite get_edit_form by (done || apply id_selected).
    unfold column. by rewrite Hid. }
  assert (id ≠ JNull ∧ id ≠ JUndefined) as [Hn1 Hn2]
    by (split; intros ->; done).
  split; [by apply startEditTask_run |].
  split; [unfold Form.task_heading; by rewrite Hformid, Htruthy |].
  destruct (saveTask_world (edit_form t) (with_task_form (edit_form t) c) Hok)
    as [Hret Htable].
  split; [exact Hret |].
  intros i t0 Ht0. rewrite Htable. unfold saved_tasks.
  rewrite Hformid, Htruthy. cbn [with_task_form remote].
  rewrite list_lookup_fmap, Ht0. eexists. split; [reflexivity |].
  destruct (task_patch_row (edit_form t) t0) as [Hother Hsame].
  rewrite Hformid in Hother, Hsame.
  split; [exact Hother |].
  intros ->. destruct (Hsame Hid Hn1 Hn2) as (Hdue & Hcopied & Hrest).
  assert (column (apply_patch (to_json (task_record (edit_form t)))
                    [("id", id)] t) "due_date" =
          date_part (column t "due_date")) as Hdue'.
  { unfold column at 1. rewrite Hdue. cbn [default from_option Datatypes.id].
    by apply due_date_of_edit_form. }
  split; [exact Hdue' |]. split; [| split].
  - intros col Hne. destruct (decide (col ∈ copied_fields)) as [Hin|Hnin].
    + assert (col ∈ task_columns) as Hsel.
      { revert Hin. unfold copied_fields, task_columns.
        rewrite !elem_of_cons, !elem_of_nil. tauto. }
      destruct (decide (column t col = JUndefined)) as [Hundef|Hdef].
      * unfold column at 1. unfold apply_patch.
        assert (matches [("id", id)] t = true) as -> by by apply matches_single.
        rewrite lookup_union_r; [done |].
        rewrite lookup_task_body, decide_False, decide_True by done.
        by rewrite get_edit_form, Hundef, decide_True.
      * unfold column at 1. rewrite (Hcopied col Hin).
        -- by rewrite get_edit_form.
        -- by rewrite get_edit_form.
    + unfold column. by rewrite Hrest.
  - intros s Hs Hne Hlen. rewrite Hdue', Hs. cbn [date_part].
    destruct (String.eqb_spec s ""); [done |].
    by rewrite substring_short.
  - intros Hnull. by rewrite Hdue', Hnull.
Qed.
End OpeningForms.

(** ** The employee dashboard: loads and failed status changes *)

Section EmployeeRuns.
Implicit Types (c : cfg EmployeeDashboard.state) (w : world).

Lemma loadEmployeeTasks_run (userEmail : string) c :
  EmployeeDashboard.loadEmployeeTasks userEmail c =
    let reply := run (employee_tasks_query userEmail) (remote c) in
    (Ret tt,
     Cfg (EmployeeDashboard.State
            (EmployeeDashboard.employee (local c))
            (EmployeeDashboard.loading (local c))
            (EmployeeDashboard.error (local c))
            (match error reply.1 with
             | Some _ => EmployeeDashboard.tasks (local c)
             | None => default [] (data reply.1)
             end)
            false
            (match error reply.1 with
             | Some _ => "Could not load your tasks"
             | None => ""
             end))
         reply.2
         (frames c ++
          [EmployeeDashboard.State
             (EmployeeDashboard.employee (local c))
             (EmployeeDashboard.loading (local c))
             (EmployeeDashboard.error (local c))
             (EmployeeDashboard.tasks (local c)) true ""])).
Proof.
  unfold EmployeeDashboard.loadEmployeeTasks, EmployeeDashboard.setTasksLoading,
    EmployeeDashboard.setTasksError, EmployeeDashboard.setTasks,
    bind, set_state, finally, try_catch.
  rewrite getTasksForEmployee_run. cbn [local remote frames]. cbv zeta.
  unfold resumed, rows_or_throw.
  destruct (run (employee_tasks_query userEmail) (remote c)) as [[d [e|]] w'];
    reflexivity.
Qed.

(** X17: the two loads of the employee dashboard are independent and always
    settle.  [loadEmployee] never touches the task list, its loading flag
    or its error; [loadEmployeeTasks] never touches the profile, its loading
    flag or its error; each ends with its own loading flag off.  An
    answered [loadEmployeeTasks] clears the tasks error and lists exactly
    the stored tasks assigned to the caller's email; a failed one keeps the
    list and sets 'Could not load your tasks'. *)
Theorem employee_loads_settle c (userEmail : string) :
  (EmployeeDashboard.tasks (local (EmployeeDashboard.loadEmployee userEmail c).2) =
     EmployeeDashboard.tasks (local c) ∧
   EmployeeDashboard.tasksLoading (local (EmployeeDashboard.loadEmployee userEmail c).2) =
     EmployeeDashboard.tasksLoading (local c) ∧
   EmployeeDashboard.tasksError (local (EmployeeDashboard.loadEmployee userEmail c).2) =
     EmployeeDashboard.tasksError (local c) ∧
   EmployeeDashboard.loading (local (EmployeeDashboard.loadEmployee userEmail c).2) =
     false) ∧
  (EmployeeDashboard.employee (local (EmployeeDashboard.loadEmployeeTasks userEmail c).2) =
     EmployeeDashboard.employee (local c) ∧
   EmployeeDashboard.loading (local (EmployeeDashboard.loadEmployeeTasks userEmail c).2) =
     EmployeeDashboard.loading (local c) ∧
   EmployeeDashboard.error (local (EmployeeDashboard.loadEmployeeTasks userEmail c).2) =
     EmployeeDashboard.error (local c) ∧
   EmployeeDashboard.tasksLoading
     (local (EmployeeDashboard.loadEmployeeTasks userEmail c).2) = false) ∧
  (next_reply (remote c) = Answer →
   EmployeeDashboard.tasks (local (EmployeeDashboard.loadEmployeeTasks userEmail c).2)
     ≡ₚ project task_columns <$>
          filter (λ t, t !! "employee_email" = Some (JStr userEmail))
                 (table "tasks" (remote c)) ∧
   Forall (λ r, get r "employee_email" = JStr userEmail)
     (EmployeeDashboard.tasks
        (local (EmployeeDashboard.loadEmployeeTasks userEmail c).2)) ∧
   EmployeeDashboard.tasksError
     (local (EmployeeDashboard.loadEmployeeTasks userEmail c).2) = "") ∧
  (∀ e, next_reply (remote c) = Failure e →
   EmployeeDashboard.tasks (local (EmployeeDashboard.loadEmployeeTasks userEmail c).2) =
     EmployeeDashboard.tasks (local c) ∧
   EmployeeDashboard.tasksError
     (local (EmployeeDashboard.loadEmployeeTasks userEmail c).2) =
     "Could not load your tasks").
Proof.
  rewrite loadEmployee_run, loadEmployeeTasks_run. cbv zeta.
  cbn [snd local EmployeeDashboard.employee EmployeeDashboard.loading
       EmployeeDashboard.error EmployeeDashboard.tasks
       EmployeeDashboard.tasksLoading EmployeeDashboard.tasksError].
  split; [done |]. split; [done |]. split.
  - intros Hans. rewrite run_Answer by done.
    rewrite employee_tasks_query_eq, serve_Select.
    cbn [fst error data default from_option id order_rows].
    rewrite employee_filter, table_after_reply.
    split; [by rewrite merge_sort_Permutation |]. split; [| done].
    apply Forall_forall. intros r [t [-> Ht]]%list_elem_of_fmap.
    rewrite merge_sort_Permutation in Ht.
    apply list_elem_of_filter in Ht as [Hmail _].
    rewrite get_project, decide_True by apply employee_email_selected.
    unfold column. by rewrite Hmail.
  - intros e He. by rewrite (run_Failure _ _ e He).
Qed.

(** X18: a status change that fails leaves the local task list as it was
    and sets 'Could not update task status', in both ways it can fail.
    When the update itself fails, the store is unchanged and no reload is
    requested.  When the update gets through and the reload fails, the
    store holds the new status while the list still shows the old rows, and
    the message is the same.  In neither case is the profile part of the
    dashboard or the tasks loading flag touched. *)
Theorem failed_status_change_keeps_list c (userEmail : string) (id : jsval)
    (status : string) (e : remote_error) :
  (next_reply (remote c) = Failure e →
   local (EmployeeDashboard.handleStatusChange userEmail id (JStr status) c).2 =
     EmployeeDashboard.State
       (EmployeeDashboard.employee (local c)) (EmployeeDashboard.loading (local c))
       (EmployeeDashboard.error (local c)) (EmployeeDashboard.tasks (local c))
       (EmployeeDashboard.tasksLoading (local c)) "Could not update task status" ∧
   remote (EmployeeDashboard.handleStatusChange userEmail id (JStr status) c).2 =
     after_reply (remote c)) ∧
  (is_failure (next_reply (remote c)) = false →
   next_reply (after_reply (remote c)) = Failure e →
   local (EmployeeDashboard.handleStatusChange userEmail id (JStr status) c).2 =
     EmployeeDashboard.State
       (EmployeeDashboard.employee (local c)) (EmployeeDashboard.loading (local c))
       (EmployeeDashboard.error (local c)) (EmployeeDashboard.tasks (local c))
       (EmployeeDashboard.tasksLoading (local c)) "Could not update task status" ∧
   table "tasks"
     (remote (EmployeeDashboard.handleStatusChange userEmail id (JStr status) c).2) =
     tasks_after_update id status (remote c)).
Proof.
  split.
  - intros He.
    unfold EmployeeDashboard.handleStatusChange, try_catch, bind,
      EmployeeDashboard.setTasksError, set_state.
    rewrite updateTaskStatus_run, run_Update. cbv zeta. rewrite He.
    cbn [fst snd throw_on_error error throw]. unfold resumed.
    cbn [local remote]. by destruct (local c).
  - intros Hok Hfail.
    unfold EmployeeDashboard.handleStatusChange, try_catch, bind,
      EmployeeDashboard.setTasksError, set_state.
    rewrite updateTaskStatus_run, run_Update. cbv zeta.
    destruct (next_reply (remote c)) eqn:Hfirst; try done;
      cbn [fst snd throw_on_error error ret].
    all: rewrite getTasksForEmployee_run, (run_Failure _ _ e) by exact Hfail.
    all: cbn [fst snd rows_or_throw error throw]; unfold resumed.
    all: cbn [local remote].
    all: rewrite table_after_reply, table_with_table, decide_True by done.
    all: by destruct (local c).
Qed.
End EmployeeRuns.

Section InitialLoadScreens.
Implicit Types (c : cfg App.state).

(** X19: from the first render ([loading] on) to the end of the initial
    load, every state that is on screen while a request is pending shows
    the loading screen: neither the login form nor a dashboard appears
    before the session and the profile have been looked up. *)
Theorem initial_load_shows_only_loading c :
  App.loading (local c) = true →
  frames c = [] →
  Forall (λ st, App.render st = App.ShowLoading)
         (frames (App.loadInitialSession c).2).
Proof.
  intros Hl Hf. rewrite loadInitialSession_run. cbv zeta.
  destruct (default None (data (auth_getSession (remote c)).1)) as [s|];
    cbn [snd frames local]; rewrite Hf; cbn [app].
  - repeat constructor; unfold App.render; cbn [App.loading]; by rewrite Hl.
  - repeat constructor; unfold App.render; by rewrite Hl.
Qed.
End InitialLoadScreens.

(** * Worked examples *)

Lemma getTasks_exact_and_ordered_witness :
  next_reply (sample_world true []) = Answer ∧
  ∃ mine all : list obj,
    (getTasksForEmployee "ann@example.com" (start tt (sample_world true []))).1 = Ret mine ∧
    (getTasksForManager (start tt (sample_world true []))).1 = Ret all ∧
    (λ r, get r "id") <$> mine = [JNum 3; JNum 1] ∧
    (λ r, get r "id") <$> all = [JNum 2; JNum 3; JNum 1].
Proof.
  split; [reflexivity |].
  destruct (getTasks_exact_and_ordered (start tt (sample_world true []))
              "ann@example.com" eq_refl)
    as (mine & all & Hm & Ha & _).
  exists mine, all. split; [exact Hm |]. split; [exact Ha |].
  vm_compute in Hm, Ha.
  injection Hm as <-. injection Ha as <-.
  split; vm_compute; reflexivity.
Defined.

Lemma getTasks_no_rows_witness :
  (getTasksForManager (start tt (sample_world true [NoData]))).1 = Ret [] ∧
  (getTasksForEmployee "zoe@example.com" (start tt (sample_world true []))).1 = Ret [].
Proof.
  split.
  - apply (proj1 (getTasks_no_rows_gives_empty_list
                    (start tt (sample_world true [NoData])) "")).
    + vm_compute. reflexivity.
    + left. vm_compute. reflexivity.
  - apply (proj2 (getTasks_no_rows_gives_empty_list
                    (start tt (sample_world true [])) "zoe@example.com")).
    + vm_compute. reflexivity.
    + right. vm_compute. reflexivity.
Defined.


Lemma saving_normalizes_due_date_witness :
  date_input (get new_task_form "due_date") ∧
  is_failure (next_reply (sample_world true [])) = false ∧
  ∃ r : obj,
    table "tasks" (remote (createTask new_task_form (start tt (sample_world true []))).2) =
      sample_tasks ++ [r] ∧
    r !! "due_date" = Some JNull ∧
    r !! "title" = Some (JStr "File expenses").
Proof.
  assert (date_input (get new_task_form "due_date")) as Hdate
    by (vm_compute; exact I).
  split; [exact Hdate |]. split; [reflexivity |].
  destruct (saving_normalizes_due_date (start tt (sample_world true []))
              new_task_form Hdate eq_refl)
    as [(r & Htable & Hdue & Hcopy) _].
  exists r. split; [exact Htable |]. split; [exact Hdue |].
  apply (Hcopy "title"); vm_compute; [left | congruence].
Defined.

Lemma dashboard_follows_role_witness :
  App.loading manager_view = false ∧
  App.session manager_view = Some ann_session ∧
  App.render manager_view = App.ShowManagerDashboard.
Proof.
  split; [reflexivity |]. split; [reflexivity |].
  destruct (dashboard_follows_role manager_view ann_session eq_refl eq_refl)
    as [[_ Hmanager] _].
  apply Hmanager. vm_compute. reflexivity.
Defined.

Lemma rejected_login_witness :
  App.session login_screen = None ∧
  App.loading login_screen = false ∧
  error (auth_signInWithPassword "ann@example.com" "guess" (sample_world false [])).1 =
    Some (RemoteError "Invalid login credentials") ∧
  message (RemoteError "Invalid login credentials") ≠ "" ∧
  App.render
    (local (App.handleLogin "ann@example.com" "guess"
              (start login_screen (sample_world false []))).2) =
    App.ShowLoginForm "Invalid login credentials".
Proof.
  assert (error (auth_signInWithPassword "ann@example.com" "guess"
                   (sample_world false [])).1 =
            Some (RemoteError "Invalid login credentials")) as Hrejected
    by (vm_compute; reflexivity).
  assert (message (RemoteError "Invalid login credentials") ≠ "") as Hmessage
    by (vm_compute; congruence).
  split; [reflexivity |]. split; [reflexivity |].
  split; [exact Hrejected |]. split; [exact Hmessage |].
  destruct (rejected_login_shows_error
              (start login_screen (sample_world false []))
              "ann@example.com" "guess" (RemoteError "Invalid login credentials")
              eq_refl eq_refl Hrejected Hmessage)
    as (_ & _ & Hrender & _).
  exact Hrender.
Defined.

Lemma handleLogout_witness :
  App.loading manager_view = false ∧
  next_reply (sample_world true [Failure (RemoteError "network unreachable")]) =
    Failure (RemoteError "network unreachable") ∧
  App.render
    (local (App.handleLogout
              (start manager_view
                 (sample_world true [Failure (RemoteError "network unreachable")]))).2) =
    App.ShowLoginForm "".
Proof.
  split; [reflexivity |]. split; [reflexivity |].
  destruct (handleLogout_resets
              (start manager_view
                 (sample_world true [Failure (RemoteError "network unreachable")])))
    as (_ & _ & _ & _ & Hrender).
  exact (Hrender eq_refl).
Defined.

Lemma reload_reflects_selected_columns_witness :
  is_failure (next_reply (sample_world true [])) = false ∧
  next_reply (after_reply (sample_world true [])) = Answer ∧
  reflects "status" (EmployeeDashboard.tasks (local status_change_run))
           (tasks_after_update (JNum 1) "done" (sample_world true [])) ∧
  Forall (λ r, get r "completed_at" = JUndefined)
         (EmployeeDashboard.tasks (local status_change_run)).
Proof.
  split; [reflexivity |]. split; [reflexivity |].
  destruct (reload_reflects_selected_columns
              (start ann_dashboard (sample_world true []))
              "ann@example.com" (JNum 1) "done" eq_refl eq_refl)
    as (_ & _ & Hreflects & _ & Hmissing).
  split.
  - apply Hreflects. vm_compute. do 3 right. left.
  - apply Forall_forall. exact Hmissing.
Defined.

(** After the status change the store holds the completion time of task 1,
    and the reloaded list holds task 1 with its new status, but no row of
    the reloaded list carries a [completed_at]. *)
Lemma reload_misses_completed_at :
  Exists (λ t, column t "id" = JNum 1 ∧
               column t "completed_at" = JStr "2024-02-01T12:00:00.000Z")
         (table "tasks" (remote status_change_run)) ∧
  Exists (λ r, get r "id" = JNum 1 ∧ get r "status" = JStr "done" ∧
               get r "completed_at" = JUndefined)
         (EmployeeDashboard.tasks (local status_change_run)) ∧
  ¬ reflects "completed_at"
      (EmployeeDashboard.tasks (local status_change_run))
      (table "tasks" (remote status_change_run)).
Proof.
  split; [| split].
  - apply (bool_decide_unpack _). vm_compute. reflexivity.
  - apply (bool_decide_unpack _). vm_compute. reflexivity.
  - apply (bool_decide_unpack _). vm_compute. reflexivity.
Qed.

Lemma failed_operation_witness :
  next_reply (sample_world true [Failure timeout_error]) = Failure timeout_error ∧
  tasks_failed "Could not save task" manager_dashboard
    (local (ManagerDashboard.saveTask new_task_form
              (start manager_dashboard (sample_world true [Failure timeout_error]))).2) ∧
  employees_failed "Could not load employees" manager_dashboard
    (local (ManagerDashboard.loadEmployees
              (start manager_dashboard (sample_world true [Failure timeout_error]))).2).
Proof.
  split; [reflexivity |].
  destruct (failed_operation_is_section_scoped
              (start manager_dashboard (sample_world true [Failure timeout_error]))
              timeout_error eq_refl)
    as ([Hemployees _] & _ & Hsave & _).
  split; [exact (proj1 (Hsave new_task_form)) | exact Hemployees].
Defined.

(** Zoe has a session but no employee record. *)
Lemma employee_lookup_witness :
  EmployeeDashboard.employee EmployeeDashboard.init = None ∧
  length (matching_employees "zoe@example.com" (sample_world true [])) ≠ 1%nat ∧
  EmployeeDashboard.render
    (local (EmployeeDashboard.loadEmployee "zoe@example.com"
              (start EmployeeDashboard.init (sample_world true []))).2) =
    EmployeeDashboard.View false (Some "Could not load your employee record") None.
Proof.
  assert (length (matching_employees "zoe@example.com" (sample_world true [])) ≠ 1%nat)
    as Hnone by (vm_compute; lia).
  split; [reflexivity |]. split; [exact Hnone |].
  destruct (employee_lookup (start EmployeeDashboard.init (sample_world true []))
              "zoe@example.com" eq_refl) as [Hfail _].
  exact (proj2 (Hfail Hnone)).
Defined.

(** ** Examples for the further properties *)

Lemma service_errors_propagate_witness :
  next_reply (sample_world true [Failure timeout_error]) = Failure timeout_error ∧
  (deleteTask (JNum 1) (start tt (sample_world true [Failure timeout_error]))).1 =
    Throw timeout_error ∧
  table "tasks"
    (remote (deleteTask (JNum 1)
               (start tt (sample_world true [Failure timeout_error]))).2) =
    sample_tasks.
Proof.
  split; [reflexivity |].
  destruct (service_errors_propagate
              (start tt (sample_world true [Failure timeout_error]))
              timeout_error "" ∅ (JNum 1) JNull eq_refl)
    as (_ & _ & _ & _ & _ & Hthrow & _ & Htables).
  split; [exact Hthrow |]. rewrite Htables. reflexivity.
Defined.

Lemma deleteTask_removes_the_task_witness :
  is_failure (next_reply (sample_world true [])) = false ∧
  row_ids (table "tasks"
             (remote (deleteTask (JNum 2) (start tt (sample_world true []))).2)) =
    [Some (JNum 1); Some (JNum 3)].
Proof.
  split; [reflexivity |].
  destruct (deleteTask_removes_the_task (start tt (sample_world true []))
              (JNum 2) eq_refl) as (_ & _ & _ & Hdel).
  destruct Hdel as [Htable _]; [done | done |].
  rewrite Htable. vm_compute. reflexivity.
Defined.

Lemma updateTask_is_idempotent_witness :
  is_failure (next_reply (sample_world true [])) = false ∧
  is_failure (next_reply (after_reply (sample_world true []))) = false ∧
  table "tasks"
    (remote (updateTask report_edit
               (updateTask report_edit (start tt (sample_world true []))).2).2) =
  table "tasks"
    (remote (updateTask report_edit (start tt (sample_world true []))).2).
Proof.
  split; [reflexivity |]. split; [reflexivity |].
  exact (proj2 (updateTask_is_idempotent (start tt (sample_world true []))
                  report_edit eq_refl eq_refl)).
Defined.

Lemma employee_list_is_slice_witness :
  next_reply (sample_world true []) = Answer ∧
  ∃ mine all : list obj,
    (getTasksForEmployee "ann@example.com" (start tt (sample_world true []))).1 =
      Ret mine ∧
    (getTasksForManager (start tt (sample_world true []))).1 = Ret all ∧
    mine ≡ₚ filter (λ r, get r "employee_email" = JStr "ann@example.com") all.
Proof.
  split; [reflexivity |].
  exact (employee_list_is_slice_of_manager_list (start tt (sample_world true []))
           "ann@example.com" eq_refl).
Defined.

Lemma loadInitialSession_settles_witness :
  App.session (local (App.loadInitialSession
                        (start App.init (sample_world true []))).2) =
    Some ann_session ∧
  App.shows_dashboard
    (App.render (local (App.loadInitialSession
                          (start App.init (sample_world true []))).2)) = true.
Proof.
  destruct (loadInitialSession_settles (start App.init (sample_world true [])))
    as (_ & _ & _ & Hsession & _ & Hdashboard).
  split; [rewrite Hsession; reflexivity |].
  apply Hdashboard. rewrite Hsession. eexists. reflexivity.
Defined.

Lemma accepted_login_witness :
  find_account "ann@example.com" "correct horse" (sample_world false []) =
    Some ann_account ∧
  is_failure (next_reply (sample_world false [])) = false ∧
  App.render
    (local (App.handleLogin "ann@example.com" "correct horse"
              (start login_screen (sample_world false []))).2) =
    App.ShowManagerDashboard.
Proof.
  assert (find_account "ann@example.com" "correct horse" (sample_world false []) =
            Some ann_account) as Hfind by (vm_compute; reflexivity).
  split; [exact Hfind |]. split; [reflexivity |].
  destruct (accepted_login_opens_dashboard
              (start login_screen (sample_world false []))
              "ann@example.com" "correct horse" ann_account Hfind eq_refl)
    as (_ & Hlocal & _ & Hrender).
  rewrite (Hrender eq_refl), Hlocal. vm_compute. reflexivity.
Defined.

Lemma manager_loads_settle_witness :
  next_reply (sample_world true []) = Answer ∧
  length (ManagerDashboard.employees
            (local (ManagerDashboard.loadEmployees
                      (start ManagerDashboard.init (sample_world true []))).2)) =
    1%nat ∧
  length (ManagerDashboard.tasks
            (local (ManagerDashboard.loadTasks
                      (start ManagerDashboard.init (sample_world true []))).2)) =
    3%nat.
Proof.
  split; [reflexivity |].
  destruct (manager_loads_settle (start ManagerDashboard.init (sample_world true [])))
    as [(_ & _ & _ & Hemployees) (_ & _ & _ & Htasks)].
  destruct (Hemployees eq_refl) as (He & _).
  destruct (Htasks eq_refl) as (Ht & _).
  split; [rewrite He | rewrite Ht]; reflexivity.
Defined.

Lemma saveTask_stores_and_reloads_witness :
  is_failure (next_reply (sample_world true [])) = false ∧
  next_reply (after_reply (sample_world true [])) = Answer ∧
  length (table "tasks"
            (remote (ManagerDashboard.saveTask new_task_form
                       (start manager_dashboard (sample_world true []))).2)) = 4%nat ∧
  ManagerDashboard.editingTask
    (local (ManagerDashboard.saveTask new_task_form
              (start manager_dashboard (sample_world true []))).2) = None.
Proof.
  split; [reflexivity |]. split; [reflexivity |].
  destruct (saveTask_stores_and_reloads
              (start manager_dashboard (sample_world true []))
              new_task_form eq_refl eq_refl)
    as (Htable & _ & _ & Hform & _).
  split; [rewrite Htable; reflexivity | exact Hform].
Defined.

Lemma saveTask_stored_but_not_reloaded_witness :
  is_failure (next_reply (sample_world true [Answer; Failure timeout_error])) = false ∧
  next_reply (after_reply (sample_world true [Answer; Failure timeout_error])) =
    Failure timeout_error ∧
  length (table "tasks"
            (remote (ManagerDashboard.saveTask new_task_form
                       (start manager_dashboard
                          (sample_world true [Answer; Failure timeout_error]))).2)) =
    4%nat ∧
  ManagerDashboard.tasksError
    (local (ManagerDashboard.saveTask new_task_form
              (start manager_dashboard
                 (sample_world true [Answer; Failure timeout_error]))).2) =
    "Could not load tasks".
Proof.
  split; [reflexivity |]. split; [reflexivity |].
  destruct (saveTask_stored_but_not_reloaded
              (start manager_dashboard
                 (sample_world true [Answer; Failure timeout_error]))
              new_task_form timeout_error eq_refl eq_refl)
    as (Htable & _ & _ & Herror & _).
  split; [rewrite Htable; reflexivity | exact Herror].
Defined.

Lemma handleDeleteTask_witness :
  is_failure (next_reply (sample_world true [])) = false ∧
  next_reply (after_reply (sample_world true [])) = Answer ∧
  row_ids (table "tasks"
             (remote (ManagerDashboard.handleDeleteTask true (JNum 2)
                        (start manager_dashboard (sample_world true []))).2)) =
    [Some (JNum 1); Some (JNum 3)].
Proof.
  split; [reflexivity |]. split; [reflexivity |].
  destruct (handleDeleteTask_deletes_and_reloads
              (start manager_dashboard (sample_world true [])) (JNum 2))
    as [_ Hdelete].
  destruct Hdelete as (Htable & _); [done | done | reflexivity | reflexivity |].
  rewrite Htable. vm_compute. reflexivity.
Defined.

Lemma saveEmployee_stores_and_reloads_witness :
  is_failure (next_reply (sample_world true [])) = false ∧
  next_reply (after_reply (sample_world true [])) = Answer ∧
  length (table "employees"
            (remote (ManagerDashboard.saveEmployee bob_form
                       (start manager_dashboard (sample_world true []))).2)) = 2%nat ∧
  ManagerDashboard.editingEmployee
    (local (ManagerDashboard.saveEmployee bob_form
              (start manager_dashboard (sample_world true []))).2) = None.
Proof.
  split; [reflexivity |]. split; [reflexivity |].
  destruct (saveEmployee_stores_and_reloads
              (start manager_dashboard (sample_world true []))
              bob_form eq_refl eq_refl)
    as (Htable & _ & _ & Hform & _).
  split; [rewrite Htable; reflexivity | exact Hform].
Defined.

Lemma saveEmployee_update_is_idempotent_witness :
  truthy (get ann_promoted "id") = true ∧
  script (sample_world true []) = [] ∧
  table "employees"
    (remote (ManagerDashboard.saveEmployee ann_promoted
               (ManagerDashboard.saveEmployee ann_promoted
                  (start manager_dashboard (sample_world true []))).2).2) =
  table "employees"
    (remote (ManagerDashboard.saveEmployee ann_promoted
               (start manager_dashboard (sample_world true []))).2).
Proof.
  assert (truthy (get ann_promoted "id") = true) as Hid by (vm_compute; reflexivity).
  split; [exact Hid |]. split; [reflexivity |].
  exact (proj2 (saveEmployee_update_is_idempotent
                  (start manager_dashboard (sample_world true []))
                  ann_promoted Hid eq_refl)).
Defined.

Lemma form_inputs_keep_the_id_witness :
  Forall (λ ev : string * string, ev.1 ∈ Form.task_inputs)
         [("title", "Write annual report"); ("status", "done")] ∧
  get (local (Form.input_events
                [("title", "Write annual report"); ("status", "done")]
                (Cfg report_edit (sample_world true []) [])).2) "id" = JNum 1.
Proof.
  assert (Forall (λ ev : string * string, ev.1 ∈ Form.task_inputs)
                 [("title", "Write annual report"); ("status", "done")]) as Hall.
  { repeat constructor; cbn [fst]; unfold Form.task_inputs;
      rewrite !elem_of_cons; auto 10. }
  split; [exact Hall |].
  destruct (form_inputs_keep_the_id report_edit
              [("title", "Write annual report"); ("status", "done")]
              (sample_world true []))
    as (_ & _ & _ & Htask & _).
  destruct (Htask Hall) as [Hid _]. rewrite Hid. reflexivity.
Defined.

Lemma startCreateTask_witness :
  ManagerDashboard.employees (local (start ManagerDashboard.init (sample_world true []))) =
    [] ∧
  is_failure (next_reply (sample_world true [])) = false ∧
  ∃ r : obj,
    table "tasks"
      (remote (ManagerDashboard.saveTask (new_task_skeleton [])
                 (ManagerDashboard.startCreateTask
                    (start ManagerDashboard.init (sample_world true []))).2).2) =
      sample_tasks ++ [r] ∧
    r !! "employee_email" = Some (JStr "").
Proof.
  split; [reflexivity |]. split; [reflexivity |].
  destruct (startCreateTask_opens_an_insert_form
              (start ManagerDashboard.init (sample_world true [])))
    as (_ & _ & _ & _ & Hempty & _ & Hsave).
  destruct (Hsave eq_refl) as (_ & r & Htable & _ & _ & _ & Hmail).
  exists r. split; [exact Htable |].
  rewrite Hmail, (Hempty eq_refl). reflexivity.
Defined.

Lemma edit_without_change_witness :
  first_task !! "id" = Some (JNum 1) ∧
  truthy (JNum 1) = true ∧
  date_input (column first_task "due_date") ∧
  is_failure (next_reply (sample_world true [])) = false ∧
  ∃ t1 : obj,
    table "tasks"
      (remote (ManagerDashboard.saveTask (edit_form first_task)
                 (with_task_form (edit_form first_task)
                    (start manager_dashboard (sample_world true [])))).2) !! 0%nat =
      Some t1 ∧
    column t1 "title" = JStr "Write report" ∧
    column t1 "due_date" = JNull.
Proof.
  assert (date_input (column first_task "due_date")) as Hdate
    by (vm_compute; exact I).
  split; [reflexivity |]. split; [reflexivity |]. split; [exact Hdate |].
  split; [reflexivity |].
  destruct (edit_without_change_keeps_the_task
              (start manager_dashboard (sample_world true []))
              first_task (JNum 1) eq_refl eq_refl Hdate eq_refl)
    as (_ & _ & _ & Hrows).
  destruct (Hrows 0%nat first_task eq_refl) as (t1 & Ht1 & _ & Hsame).
  destruct (Hsame eq_refl) as (_ & Hcols & _ & Hnull).
  exists t1. split; [exact Ht1 |]. split.
  - rewrite Hcols by done. reflexivity.
  - apply Hnull. reflexivity.
Defined.

Lemma employee_loads_settle_witness :
  next_reply (sample_world true []) = Answer ∧
  length (EmployeeDashboard.tasks
            (local (EmployeeDashboard.loadEmployeeTasks "ann@example.com"
                      (start EmployeeDashboard.init (sample_world true []))).2)) =
    2%nat.
Proof.
  split; [reflexivity |].
  destruct (employee_loads_settle
              (start EmployeeDashboard.init (sample_world true []))
              "ann@example.com") as (_ & _ & Hanswered & _).
  destruct (Hanswered eq_refl) as (Hlist & _).
  rewrite Hlist. reflexivity.
Defined.

Lemma failed_status_change_witness :
  next_reply (sample_world true [Failure timeout_error]) = Failure timeout_error ∧
  EmployeeDashboard.tasksError
    (local (EmployeeDashboard.handleStatusChange "ann@example.com" (JNum 1)
              (JStr "done")
              (start ann_dashboard (sample_world true [Failure timeout_error]))).2) =
    "Could not update task status".
Proof.
  split; [reflexivity |].
  destruct (failed_status_change_keeps_list
              (start ann_dashboard (sample_world true [Failure timeout_error]))
              "ann@example.com" (JNum 1) "done" timeout_error) as [Hfailed _].
  destruct (Hfailed eq_refl) as [Hlocal _]. rewrite Hlocal. reflexivity.
Defined.

Lemma initial_load_shows_only_loading_witness :
  App.loading (local (start App.init (sample_world true []))) = true ∧
  frames (start App.init (sample_world true [])) = [] ∧
  length (frames (App.loadInitialSession
                    (start App.init (sample_world true []))).2) = 2%nat ∧
  Forall (λ st, App.render st = App.ShowLoading)
         (frames (App.loadInitialSession
                    (start App.init (sample_world true []))).2).
Proof.
  split; [reflexivity |]. split; [reflexivity |]. split; [reflexivity |].
  exact (initial_load_shows_only_loading
           (start App.init (sample_world true [])) eq_refl eq_refl).
Defined.
